(** * arxiv-semantic-search-mcp: a shallow embedding of the query builder,
      the identifier normalizer, the category taxonomy, the Atom response
      parser, the paper record and the validation done by the two search
      operations.

    Sources embedded: [src/arxiv_client.py], [src/semantic_search_client.py],
    [src/models.py] and [src/server.py].

    Conventions.
    - A Python [str] is a [string]: a sequence of 8-bit characters.  Case
      mapping, white space and digit classes are the ASCII ones.
    - A Python [int] is a [Z]; a [float] is a [spec_float].
    - [Optional[T]] is [option T]; the truthiness of an optional string
      ([if x:]) is [Py.truthy]: present and not empty.
    - A [dict] is a [gmap], a [set] a [gset].
    - A function that can raise returns a [result]; a function that talks
      to a backend also threads the list of requests issued so far.
    - The standard library's XML parser, the HTTP transport and the JSON
      decoding of the semantic backend's answer are section variables.

    The file has two parts: the definitions (the program, then the words of
    the specification), and the facts proved about them. *)

From Stdlib Require Import ZArith Ascii String List Bool Lia SpecFloat.
From stdpp Require Import base option list strings gmap.

Local Open Scope Z_scope.

(** * Part I: definitions *)

(** ** Python built-ins on [str] *)

Module Py.

(** [c in "0123456789"], the class [[0-9]] of the [re] module *)
Definition is_digit (c : ascii) : bool :=
  let n := nat_of_ascii c in (48 <=? n)%nat && (n <=? 57)%nat.

(** [str.isspace] on one ASCII character: TAB, LF, VT, FF, CR, the four
    separators 0x1c..0x1f and the space *)
Definition is_space (c : ascii) : bool :=
  let n := nat_of_ascii c in
  ((9 <=? n)%nat && (n <=? 13)%nat) || ((28 <=? n)%nat && (n <=? 32)%nat).

Definition lower_ascii (c : ascii) : ascii :=
  let n := nat_of_ascii c in
  if (65 <=? n)%nat && (n <=? 90)%nat then ascii_of_nat (n + 32) else c.

(** [s.lower()] *)
Fixpoint lower (s : string) : string :=
  match s with
  | EmptyString => EmptyString
  | String c r => String (lower_ascii c) (lower r)
  end.

(** [s.startswith(p)] *)
Fixpoint startswith (s p : string) {struct p} : bool :=
  match p with
  | EmptyString => true
  | String b p' =>
      match s with
      | EmptyString => false
      | String a s' => Ascii.eqb a b && startswith s' p'
      end
  end.

(** [s.removeprefix(p)] when [s.startswith(p)], nothing otherwise: the
    step of a matcher over a literal *)
Fixpoint eat (p s : string) : option string :=
  match p with
  | EmptyString => Some s
  | String b p' =>
      match s with
      | EmptyString => None
      | String a s' => if Ascii.eqb a b then eat p' s' else None
      end
  end.

(** [c in s] for a one-character [c] *)
Fixpoint contains (c : ascii) (s : string) : bool :=
  match s with
  | EmptyString => false
  | String a r => Ascii.eqb a c || contains c r
  end.

(** [s.split(c)[0]]: the part of [s] before the first [c], the whole of
    [s] when [c] does not occur *)
Fixpoint split_head (c : ascii) (s : string) : string :=
  match s with
  | EmptyString => EmptyString
  | String a r => if Ascii.eqb a c then EmptyString else String a (split_head c r)
  end.

(** [s.split(c)[-1]]: the part of [s] after the last [c], the whole of
    [s] when [c] does not occur *)
Fixpoint split_last (c : ascii) (s : string) : string :=
  match s with
  | EmptyString => EmptyString
  | String a r => if contains c s then split_last c r else s
  end.

(** [s.replace(p, "")] for a non-empty [p]: every occurrence of [p],
    found left to right without overlap, is deleted.  [skip] counts the
    characters of the occurrence being deleted that are still ahead. *)
Fixpoint delete_from (p s : string) (skip : nat) : string :=
  match s with
  | EmptyString => EmptyString
  | String a r =>
      match skip with
      | S k => delete_from p r k
      | O =>
          if startswith s p
          then delete_from p r (String.length p - 1)
          else String a (delete_from p r 0)
      end
  end.

Definition delete_all (p s : string) : string := delete_from p s 0.

(** the longest prefix of [s] made of digits, and what follows it *)
Fixpoint span_digits (s : string) : string * string :=
  match s with
  | EmptyString => (EmptyString, EmptyString)
  | String a r =>
      if is_digit a
      then let '(d, rest) := span_digits r in (String a d, rest)
      else (EmptyString, s)
  end.

Fixpoint all_digits (s : string) : bool :=
  match s with
  | EmptyString => true
  | String a r => is_digit a && all_digits r
  end.

(** [s.lstrip()], [s.rstrip()] and [s.strip()] *)
Fixpoint lstrip (s : string) : string :=
  match s with
  | EmptyString => EmptyString
  | String a r => if is_space a then lstrip r else s
  end.

Fixpoint rstrip (s : string) : string :=
  match s with
  | EmptyString => EmptyString
  | String a r =>
      match rstrip r with
      | EmptyString => if is_space a then EmptyString else String a EmptyString
      | r' => String a r'
      end
  end.

Definition strip (s : string) : string := rstrip (lstrip s).

(** truthiness of a [str] and of an [Optional[str]] *)
Definition nonempty (s : string) : bool :=
  match s with EmptyString => false | _ => true end.

Definition truthy (o : option string) : bool :=
  match o with Some s => nonempty s | None => false end.

(** [cast(str, o)]: no check at run time; every use is behind a test that
    [o] is a string *)
Definition cast_str (o : option string) : string := default EmptyString o.

(** [a > b] on strings: lexicographic on the character codes *)
Definition str_gt (a b : string) : bool :=
  match String.compare a b with Gt => true | _ => false end.

(** the value of a decimal digit *)
Definition digit_value (c : ascii) : Z := Z.of_nat (nat_of_ascii c) - 48.

(** the value of a run of digits *)
Fixpoint decimal_from (acc : Z) (s : string) : Z :=
  match s with
  | EmptyString => acc
  | String c r => decimal_from (10 * acc + digit_value c) r
  end.

Definition decimal (s : string) : Z := decimal_from 0 s.

(** the digits of an [int] literal: groups of digits separated by single
    underscores; [after_digit] says whether the last character was a digit *)
Fixpoint int_digits (acc : Z) (after_digit : bool) (s : string) : option Z :=
  match s with
  | EmptyString => if after_digit then Some acc else None
  | String c r =>
      if is_digit c then int_digits (10 * acc + digit_value c) true r
      else if Ascii.eqb c "_" && after_digit then int_digits acc false r
      else None
  end.

(** [int(s)] in base 10: white space around, an optional sign, digits *)
Definition int_of_str (s : string) : option Z :=
  match strip s with
  | String "-" r => Z.opp <$> int_digits 0 false r
  | String "+" r => int_digits 0 false r
  | r => int_digits 0 false r
  end.

Definition digit_char (n : Z) : ascii := ascii_of_nat (48 + Z.to_nat (n mod 10)).

(** [%02d] and [%04d] *)
Definition pad2 (n : Z) : string :=
  String (digit_char (n / 10)) (String (digit_char n) EmptyString).

Definition pad4 (n : Z) : string :=
  String (digit_char (n / 1000)) (String (digit_char (n / 100)) (pad2 n)).

(** the double quote, for the text of f-strings that contain one *)
Definition dquote : string := String "034" EmptyString.

(** [p in s]: [p] occurs in [s] as a substring *)
Fixpoint occurs (p s : string) : bool :=
  startswith s p
  || match s with
     | EmptyString => false
     | String _ r => occurs p r
     end.

End Py.

(** ** Exceptions and results *)

Inductive exn : Type :=
| ValueError (msg : string)
| TypeError
| RuntimeError (msg : string)
| ParseError
| HTTPError.

Inductive result (A : Type) : Type :=
| Ok (a : A)
| Raise (e : exn).
Arguments Ok {A} a.
Arguments Raise {A} e.

(** ** The identifier normalizer: [ArxivClient.normalize_arxiv_id] *)

Module Normalizer.
Import Py.

(** [[0-9]+\.[0-9]+] at the head of [s]: the text matched and the rest.
    The quantifiers are greedy, and giving digits back never helps: the
    character after a shorter run is a digit, not the dot. *)
Definition match_number (s : string) : option (string * string) :=
  let '(d1, r1) := span_digits s in
  if nonempty d1 then
    match r1 with
    | String "." r2 =>
        let '(d2, r3) := span_digits r2 in
        if nonempty d2 then Some (d1 +:+ "." +:+ d2, r3) else None
    | _ => None
    end
  else None.

(** [(?:v[0-9]+)?] at the head of [s] *)
Definition match_version_opt (s : string) : string * string :=
  match s with
  | String "v" r =>
      let '(d, rest) := span_digits r in
      if nonempty d then ("v" +:+ d, rest) else (EmptyString, s)
  | _ => (EmptyString, s)
  end.

(** group 1 of [arxiv\.org/(?:abs|pdf)/([0-9]+\.[0-9]+(?:v[0-9]+)?)]
    matched at the head of [s] *)
Definition match_url_here (s : string) : option string :=
  match eat "arxiv.org/" s with
  | None => None
  | Some r0 =>
      let after_kind :=
        match eat "abs" r0 with
        | Some r => Some r
        | None => eat "pdf" r0
        end in
      match after_kind with
      | None => None
      | Some r1 =>
          match eat "/" r1 with
          | None => None
          | Some r2 =>
              match match_number r2 with
              | None => None
              | Some (num, r3) => Some (num +:+ fst (match_version_opt r3))
              end
          end
      end
  end.

(** [re.search(url_pattern, s)]: the match at the leftmost position *)
Fixpoint search_url (s : string) : option string :=
  match match_url_here s with
  | Some g => Some g
  | None =>
      match s with
      | EmptyString => None
      | String _ r => search_url r
      end
  end.

(** [re.match(r'^[0-9]+\.[0-9]+v[0-9]+$', s)]; without [re.MULTILINE]
    the [$] also matches just before a final line feed *)
Definition match_versioned (s : string) : bool :=
  match match_number s with
  | Some (_, String "v" r) =>
      let '(d, rest) := span_digits r in
      nonempty d &&
      match rest with
      | EmptyString => true
      | String "010" EmptyString => true
      | _ => false
      end
  | _ => false
  end.

(** the first [if]: "Handle URLs" *)
Definition extract_from_url (arxiv_id : string) : string :=
  if startswith arxiv_id "http://" || startswith arxiv_id "https://" then
    match search_url arxiv_id with
    | Some g => delete_all ".pdf" g
    | None => arxiv_id
    end
  else arxiv_id.

(** the second [if]: "Remove version suffix if present" *)
Definition strip_version_suffix (arxiv_id : string) : string :=
  if contains "v" arxiv_id && match_versioned arxiv_id
  then split_head "v" arxiv_id
  else arxiv_id.

Definition normalize_arxiv_id (arxiv_id : string) : string :=
  strip_version_suffix (extract_from_url arxiv_id).

End Normalizer.

(** ** The category taxonomy: [ARXIV_CATEGORIES], [get_categories] *)

Module Taxonomy.
Import Py.

(** the items of the dictionary literal, in the order of the source *)
Definition ARXIV_CATEGORIES_items : list (string * string) :=
  [
   ("cs.AI", "Artificial Intelligence");
   ("cs.AR", "Hardware Architecture");
   ("cs.CC", "Computational Complexity");
   ("cs.CE", "Computational Engineering, Finance, and Science");
   ("cs.CG", "Computational Geometry");
   ("cs.CL", "Computation and Language");
   ("cs.CR", "Cryptography and Security");
   ("cs.CV", "Computer Vision and Pattern Recognition");
   ("cs.CY", "Computers and Society");
   ("cs.DB", "Databases");
   ("cs.DC", "Distributed, Parallel, and Cluster Computing");
   ("cs.DL", "Digital Libraries");
   ("cs.DM", "Discrete Mathematics");
   ("cs.DS", "Data Structures and Algorithms");
   ("cs.ET", "Emerging Technologies");
   ("cs.FL", "Formal Languages and Automata Theory");
   ("cs.GL", "General Literature");
   ("cs.GR", "Graphics");
   ("cs.GT", "Computer Science and Game Theory");
   ("cs.HC", "Human-Computer Interaction");
   ("cs.IR", "Information Retrieval");
   ("cs.IT", "Information Theory");
   ("cs.LG", "Machine Learning");
   ("cs.LO", "Logic in Computer Science");
   ("cs.MA", "Multiagent Systems");
   ("cs.MM", "Multimedia");
   ("cs.MS", "Mathematical Software");
   ("cs.NA", "Numerical Analysis");
   ("cs.NE", "Neural and Evolutionary Computing");
   ("cs.NI", "Networking and Internet Architecture");
   ("cs.OH", "Other Computer Science");
   ("cs.OS", "Operating Systems");
   ("cs.PF", "Performance");
   ("cs.PL", "Programming Languages");
   ("cs.RO", "Robotics");
   ("cs.SC", "Symbolic Computation");
   ("cs.SD", "Sound");
   ("cs.SE", "Software Engineering");
   ("cs.SI", "Social and Information Networks");
   ("cs.SY", "Systems and Control");
   ("econ.EM", "Econometrics");
   ("eess.AS", "Audio and Speech Processing");
   ("eess.IV", "Image and Video Processing");
   ("eess.SP", "Signal Processing");
   ("math.AC", "Commutative Algebra");
   ("math.AG", "Algebraic Geometry");
   ("math.AP", "Analysis of PDEs");
   ("math.AT", "Algebraic Topology");
   ("math.CA", "Classical Analysis and ODEs");
   ("math.CO", "Combinatorics");
   ("math.CT", "Category Theory");
   ("math.CV", "Complex Variables");
   ("math.DG", "Differential Geometry");
   ("math.DS", "Dynamical Systems");
   ("math.FA", "Functional Analysis");
   ("math.GM", "General Mathematics");
   ("math.GN", "General Topology");
   ("math.GR", "Group Theory");
   ("math.GT", "Geometric Topology");
   ("math.HO", "History and Overview");
   ("math.IT", "Information Theory");
   ("math.KT", "K-Theory and Homology");
   ("math.LO", "Logic");
   ("math.MG", "Metric Geometry");
   ("math.MP", "Mathematical Physics");
   ("math.NA", "Numerical Analysis");
   ("math.NT", "Number Theory");
   ("math.OA", "Operator Algebras");
   ("math.OC", "Optimization and Control");
   ("math.PR", "Probability");
   ("math.QA", "Quantum Algebra");
   ("math.RA", "Rings and Algebras");
   ("math.RT", "Representation Theory");
   ("math.SG", "Symplectic Geometry");
   ("math.SP", "Spectral Theory");
   ("math.ST", "Statistics Theory");
   ("astro-ph.CO", "Cosmology and Nongalactic Astrophysics");
   ("astro-ph.EP", "Earth and Planetary Astrophysics");
   ("astro-ph.GA", "Astrophysics of Galaxies");
   ("astro-ph.HE", "High Energy Astrophysical Phenomena");
   ("astro-ph.IM", "Instrumentation and Methods for Astrophysics");
   ("astro-ph.SR", "Solar and Stellar Astrophysics");
   ("cond-mat.dis-nn", "Disordered Systems and Neural Networks");
   ("cond-mat.mes-hall", "Mesoscale and Nanoscale Physics");
   ("cond-mat.mtrl-sci", "Materials Science");
   ("cond-mat.other", "Other Condensed Matter");
   ("cond-mat.quant-gas", "Quantum Gases");
   ("cond-mat.soft", "Soft Condensed Matter");
   ("cond-mat.stat-mech", "Statistical Mechanics");
   ("cond-mat.str-el", "Strongly Correlated Electrons");
   ("cond-mat.supr-con", "Superconductivity");
   ("gr-qc", "General Relativity and Quantum Cosmology");
   ("hep-ex", "High Energy Physics - Experiment");
   ("hep-lat", "High Energy Physics - Lattice");
   ("hep-ph", "High Energy Physics - Phenomenology");
   ("hep-th", "High Energy Physics - Theory");
   ("math-ph", "Mathematical Physics");
   ("nlin.AO", "Adaptation and Self-Organizing Systems");
   ("nlin.CD", "Chaotic Dynamics");
   ("nlin.CG", "Cellular Automata and Lattice Gases");
   ("nlin.PS", "Pattern Formation and Solitons");
   ("nlin.SI", "Exactly Solvable and Integrable Systems");
   ("nucl-ex", "Nuclear Experiment");
   ("nucl-th", "Nuclear Theory");
   ("physics.acc-ph", "Accelerator Physics");
   ("physics.ao-ph", "Atmospheric and Oceanic Physics");
   ("physics.app-ph", "Applied Physics");
   ("physics.atm-clus", "Atomic and Molecular Clusters");
   ("physics.atom-ph", "Atomic Physics");
   ("physics.bio-ph", "Biological Physics");
   ("physics.chem-ph", "Chemical Physics");
   ("physics.class-ph", "Classical Physics");
   ("physics.comp-ph", "Computational Physics");
   ("physics.data-an", "Data Analysis, Statistics and Probability");
   ("physics.ed-ph", "Physics Education");
   ("physics.flu-dyn", "Fluid Dynamics");
   ("physics.gen-ph", "General Physics");
   ("physics.geo-ph", "Geophysics");
   ("physics.hist-ph", "History and Philosophy of Physics");
   ("physics.ins-det", "Instrumentation and Detectors");
   ("physics.med-ph", "Medical Physics");
   ("physics.optics", "Optics");
   ("physics.plasm-ph", "Plasma Physics");
   ("physics.pop-ph", "Popular Physics");
   ("physics.soc-ph", "Physics and Society");
   ("physics.space-ph", "Space Physics");
   ("q-bio.BM", "Biomolecules");
   ("q-bio.CB", "Cell Behavior");
   ("q-bio.GN", "Genomics");
   ("q-bio.MN", "Molecular Networks");
   ("q-bio.NC", "Neurons and Cognition");
   ("q-bio.OT", "Other Quantitative Biology");
   ("q-bio.PE", "Populations and Evolution");
   ("q-bio.QM", "Quantitative Methods");
   ("q-bio.SC", "Subcellular Processes");
   ("q-bio.TO", "Tissues and Organs");
   ("q-fin.CP", "Computational Finance");
   ("q-fin.EC", "Economics");
   ("q-fin.GN", "General Finance");
   ("q-fin.MF", "Mathematical Finance");
   ("q-fin.PM", "Portfolio Management");
   ("q-fin.PR", "Pricing of Securities");
   ("q-fin.RM", "Risk Management");
   ("q-fin.ST", "Statistical Finance");
   ("q-fin.TR", "Trading and Market Microstructure");
   ("quant-ph", "Quantum Physics");
   ("stat.AP", "Applications");
   ("stat.CO", "Computation");
   ("stat.ME", "Methodology");
   ("stat.ML", "Machine Learning");
   ("stat.OT", "Other Statistics");
   ("stat.TH", "Statistics Theory")
  ].

Definition ARXIV_CATEGORIES : gmap string string :=
  list_to_map ARXIV_CATEGORIES_items.

(** [set([code.split('.')[0] for code in ARXIV_CATEGORIES.keys()])] *)
Definition ARXIV_MAJOR_CATEGORIES : gset string :=
  list_to_set (split_head "." <$> (map_to_list ARXIV_CATEGORIES).*1).

Definition get_categories (major_category : option string) : gmap string string :=
  if truthy major_category then
    let major_category := lower (cast_str major_category) in
    if decide (major_category ∉ ARXIV_MAJOR_CATEGORIES) then ∅
    else
      filter (λ item : string * string,
                startswith (lower item.1) major_category = true)
             ARXIV_CATEGORIES
  else ARXIV_CATEGORIES.

End Taxonomy.

(** ** The paper record: [models.py] *)

Module Models.
Import Py.

Record AISummary : Type := {
  model_version : string;
  generated_at : Z;
  summary : string;
  key_contributions : list string;
  methodology : string;
  experiments : string;
  related_research : list string;
  limitations : list string;
  tags : list string
}.

Record ArxivPaper : Type := {
  arxiv_id : string;
  title : string;
  authors : list string;
  abstract : string;
  categories : list string;
  published_date : string;
  comment : option string;
  ai_summary : option AISummary;
  score : option spec_float;
  pdf_url : option string
}.

(** The validator of [pdf_url], run on every construction ([always=True]):
    [v] is the value given for the field, [values_arxiv_id] is
    [values.get('arxiv_id')], the identifier validated before it. *)
Definition _populate_pdf_url (v values_arxiv_id : option string) : option string :=
  if truthy v then v
  else if truthy values_arxiv_id
       then Some ("https://arxiv.org/pdf/" +:+ cast_str values_arxiv_id)
       else None.

(** [ArxivPaper(arxiv_id=..., ..., pdf_url=...)] on arguments of the
    declared types: the only way the program makes a record *)
Definition ArxivPaper_init
    (arxiv_id title : string) (authors : list string) (abstract : string)
    (categories : list string) (published_date : string)
    (comment : option string) (ai_summary : option AISummary)
    (score : option spec_float) (pdf_url : option string) : ArxivPaper :=
  {| arxiv_id := arxiv_id;
     title := title;
     authors := authors;
     abstract := abstract;
     categories := categories;
     published_date := published_date;
     comment := comment;
     ai_summary := ai_summary;
     score := score;
     pdf_url := _populate_pdf_url pdf_url (Some arxiv_id) |}.

End Models.

(** ** Element trees: what [xml.etree.ElementTree] hands to the parser *)

Module Xml.

(** an element: its qualified tag [{uri}local], its attributes, its text
    and its children in document order *)
#[warnings="-register-all"]
Inductive Element : Type :=
| Elem (tag : string) (attrib : gmap string string)
       (text : option string) (children : list Element).

Definition tag (e : Element) : string :=
  match e with Elem t _ _ _ => t end.

Definition attrib (e : Element) : gmap string string :=
  match e with Elem _ a _ _ => a end.

Definition text (e : Element) : option string :=
  match e with Elem _ _ x _ => x end.

Definition children (e : Element) : list Element :=
  match e with Elem _ _ _ cs => cs end.

(** the [namespaces] mapping of [_parse_response], applied to a prefixed
    name such as [atom:id] *)
Definition atom (name : string) : string :=
  "{http://www.w3.org/2005/Atom}" +:+ name.

Definition opensearch (name : string) : string :=
  "{http://a9.com/-/spec/opensearch/1.1/}" +:+ name.

Definition arxiv (name : string) : string :=
  "{http://arxiv.org/schemas/atom}" +:+ name.

Definition has_tag (t : string) (e : Element) : bool := String.eqb (tag e) t.

(** [e.findall(t)] and [e.find(t)] for a plain tag: the children *)
Definition findall (t : string) (e : Element) : list Element :=
  List.filter (has_tag t) (children e).

Definition find (t : string) (e : Element) : option Element :=
  head (findall t e).

(** every element below [e], in document order *)
Fixpoint descendants (e : Element) : list Element :=
  match e with
  | Elem _ _ _ cs =>
      (fix below (l : list Element) : list Element :=
         match l with
         | [] => []
         | c :: l' => c :: descendants c ++ below l'
         end) cs
  end.

(** [e.findall('.//' + t)] and [e.find('.//' + t)] *)
Definition findall_below (t : string) (e : Element) : list Element :=
  List.filter (has_tag t) (descendants e).

Definition find_below (t : string) (e : Element) : option Element :=
  head (findall_below t e).

End Xml.

(** ** The Atom response parser: [_parse_datetime], [_parse_entry],
       [_parse_response] *)

Module Parser.
Import Py Models Xml.

(** *** [datetime.strptime(s, "%Y-%m-%dT%H:%M:%SZ")]

    The format compiles to the regular expression
    [(\d\d\d\d)-(1[0-2]|0[1-9]|[1-9])-(3[01]|[12]\d|0[1-9]|[1-9]| [1-9])T
     (2[0-3]|[0-1]\d|\d):([0-5]\d|\d):(6[01]|[0-5]\d|\d)Z], matched without
    regard to case against the whole text.  Every numeric field is followed
    by a literal that is not a digit, so a field is the whole run of digits
    before that literal. *)

(** a field of one or two digits with its value in [lo..hi] *)
Definition field2 (lo hi : Z) (s : string) : option (Z * string) :=
  let '(d, rest) := span_digits s in
  if ((String.length d =? 1)%nat || (String.length d =? 2)%nat)
     && (lo <=? decimal d) && (decimal d <=? hi)
  then Some (decimal d, rest) else None.

(** [%Y]: exactly four digits; the year 0 is below [datetime.MINYEAR] *)
Definition field_year (s : string) : option (Z * string) :=
  let '(d, rest) := span_digits s in
  if (String.length d =? 4)%nat && (1 <=? decimal d)
  then Some (decimal d, rest) else None.

(** [%d] also takes a space and one digit from 1 to 9 *)
Definition field_day (s : string) : option (Z * string) :=
  match s with
  | String " " (String c rest) =>
      if is_digit c && (1 <=? digit_value c)
      then Some (digit_value c, rest) else None
  | _ => field2 1 31 s
  end.

(** a literal character of the format, matched without regard to case *)
Definition literal (c : ascii) (s : string) : option string :=
  match s with
  | String a r => if Ascii.eqb (lower_ascii a) (lower_ascii c) then Some r else None
  | EmptyString => None
  end.

Definition is_leap (y : Z) : bool :=
  (y mod 4 =? 0) && (negb (y mod 100 =? 0) || (y mod 400 =? 0)).

Definition days_in_month (y m : Z) : Z :=
  if m =? 2 then (if is_leap y then 29 else 28)
  else if (m =? 4) || (m =? 6) || (m =? 9) || (m =? 11) then 30
  else 31.

(** the date of the timestamp, when [strptime] accepts it: the text
    matches, the day exists in its month, and the second is below 60 (the
    pattern lets 60 and 61 through, the [datetime] constructor does not) *)
Definition strptime_iso (s : string) : option (Z * Z * Z) :=
  '(y, r) ← field_year s;
  r ← literal "-" r;
  '(m, r) ← field2 1 12 r;
  r ← literal "-" r;
  '(d, r) ← field_day r;
  r ← literal "T" r;
  '(_, r) ← field2 0 23 r;
  r ← literal ":" r;
  '(_, r) ← field2 0 59 r;
  r ← literal ":" r;
  '(sec, r) ← field2 0 61 r;
  r ← literal "Z" r;
  if nonempty r then None
  else if 59 <? sec then None
  else if days_in_month y m <? d then None
  else Some (y, m, d).

(** [dt.strftime("%Y-%m-%d")], with the year on four digits *)
Definition strftime_ymd (date : Z * Z * Z) : string :=
  let '(y, m, d) := date in pad4 y +:+ "-" +:+ pad2 m +:+ "-" +:+ pad2 d.

Definition _parse_datetime (date_str : string) : result string :=
  match strptime_iso date_str with
  | Some dt => Ok (strftime_ymd dt)
  | None => Raise (ValueError "time data does not match format '%Y-%m-%dT%H:%M:%SZ'")
  end.

Definition _safe_get_text (element : option Element) : option string :=
  match element with
  | Some e => text e
  | None => None
  end.

(** the four [required_fields] of an entry, in the order of the source *)
Definition required_fields (entry : Element) : list (option Element) :=
  [ find (atom "id") entry;
    find (atom "title") entry;
    find (atom "summary") entry;
    find (atom "published") entry ].

(** the list comprehension over [atom:author]: the text of the first
    [atom:name] of each author that has one with a non-empty text *)
Definition author_names (entry : Element) : list string :=
  omap (λ author,
          match find (atom "name") author with
          | Some name => if truthy (text name) then text name else None
          | None => None
          end)
       (findall (atom "author") entry).

(** the loop over [atom:category]: every [term] attribute that is there *)
Definition category_terms (entry : Element) : list string :=
  omap (λ cat, attrib cat !! "term") (findall (atom "category") entry).

(** [text.split('/')[-1].split('v')[0]] *)
Definition entry_arxiv_id (id_text : string) : string :=
  split_head "v" (split_last "/" id_text).

Definition _parse_entry (entry : Element) : result (option ArxivPaper) :=
  if negb (forallb (λ field, truthy (_safe_get_text field)) (required_fields entry))
  then Ok None
  else
    let authors := author_names entry in
    if bool_decide (authors = []) then Ok None
    else
      let category_terms := category_terms entry in
      if bool_decide (category_terms = []) then Ok None
      else
        let arxiv_id :=
          entry_arxiv_id (cast_str (_safe_get_text (find (atom "id") entry))) in
        let comment := _safe_get_text (find (arxiv "comment") entry) in
        match _parse_datetime
                (cast_str (_safe_get_text (find (atom "published") entry))) with
        | Raise e => Raise e
        | Ok published_date =>
            Ok (Some (ArxivPaper_init
                        arxiv_id
                        (strip (cast_str (_safe_get_text (find (atom "title") entry))))
                        authors
                        (strip (cast_str (_safe_get_text (find (atom "summary") entry))))
                        category_terms
                        published_date
                        comment None None None))
        end.

(** the [for] loop of [_parse_response]: a record is appended, [None] is
    passed over, and an exception is logged and the loop goes on *)
Fixpoint parse_entries (entries : list Element) : list ArxivPaper :=
  match entries with
  | [] => []
  | entry :: rest =>
      match _parse_entry entry with
      | Ok (Some paper) => paper :: parse_entries rest
      | Ok None => parse_entries rest
      | Raise _ => parse_entries rest
      end
  end.

Section Response.

(** [ET.fromstring]: the root of a well-formed document, nothing when the
    text is not one (the library raises [ParseError]) *)
Variable fromstring : string → option Element.

Definition _parse_response (response_text : string) : result (list ArxivPaper) :=
  match fromstring response_text with
  | None => Raise ParseError
  | Some root =>
      let total_results_elem := find_below (opensearch "totalResults") root in
      match _safe_get_text total_results_elem with
      | None => Raise TypeError
      | Some count =>
          match int_of_str count with
          | None => Raise (ValueError "invalid literal for int() with base 10")
          | Some total_results =>
              Ok (parse_entries (findall_below (atom "entry") root))
          end
      end
  end.

End Response.

End Parser.

(** ** Search orchestration: [ArxivClient.search],
       [SemanticSearchClient.search], [search_keyword], [search_semantic] *)

Module Orchestration.
Import Py Models Parser.

(** a value of a query parameter or of the JSON body *)
Inductive Value : Type :=
| VStr (s : string)
| VInt (n : Z)
| VBool (b : bool)
| VList (l : list string).

(** a request handed to the HTTP client, with its [params] or [json]
    dictionary as the list of its items *)
Inductive Request : Type :=
| GET (url : string) (params : list (string * Value))
| POST (url : string) (json : list (string * Value)).

(** the clients; their [httpx.AsyncClient] is the transport below *)
Record ArxivClient : Type := { arxiv_base_url : string }.

Record SemanticSearchClient : Type := { semantic_base_url : string }.

Definition ArxivClient_init : ArxivClient :=
  {| arxiv_base_url := "https://export.arxiv.org/api/query" |}.

Definition SemanticSearchClient_init : SemanticSearchClient :=
  {| semantic_base_url := "https://hub.arxivsearch.cn/api/search" |}.

(** a computation that may raise and may issue requests: it is given the
    requests issued so far and returns them with its own added *)
Definition M (A : Type) : Type := list Request → result A * list Request.

Definition ret {A} (a : A) : M A := λ log, (Ok a, log).

Definition raise {A} (e : exn) : M A := λ log, (Raise e, log).

Definition bind {A B} (m : M A) (k : A → M B) : M B :=
  λ log,
    match m log with
    | (Ok a, log') => k a log'
    | (Raise e, log') => (Raise e, log')
    end.

Definition lift {A} (r : result A) : M A := λ log, (r, log).

Notation "x <~ m ;; k" := (bind m (λ x, k))
  (at level 100, m at next level, right associativity).

(** the requests a computation issued, and its outcome, from a fresh start *)
Definition issued {A} (m : M A) : list Request := (m []).2.

Definition outcome {A} (m : M A) : result A := (m []).1.

(** the [f'ti:"{title}"'] family of f-strings *)
Definition quoted_clause (field value : string) : string :=
  field +:+ ":" +:+ dquote +:+ value +:+ dquote.

Definition plain_clause (field value : string) : string :=
  field +:+ ":" +:+ value.

(** the body of the [try] in [search_keyword]: on strings it cannot raise *)
Definition format_dates (start_date end_date : string) : result (string * string) :=
  Ok (delete_all "-" start_date +:+ "0000", delete_all "-" end_date +:+ "2359").

(** [query_parts] as [search_keyword] has it when it reaches
    [if not query_parts] *)
Definition build_query_parts
    (title author abstract category all_fields start_date end_date : option string)
    : result (list string) :=
  let query_parts := [] in
  let query_parts :=
    if truthy title
    then query_parts ++ [quoted_clause "ti" (cast_str title)] else query_parts in
  let query_parts :=
    if truthy author
    then query_parts ++ [quoted_clause "au" (cast_str author)] else query_parts in
  let query_parts :=
    if truthy abstract
    then query_parts ++ [quoted_clause "abs" (cast_str abstract)] else query_parts in
  let query_parts :=
    if truthy category
    then query_parts ++ [plain_clause "cat" (cast_str category)] else query_parts in
  let query_parts :=
    if truthy all_fields
    then query_parts ++ [plain_clause "all" (cast_str all_fields)] else query_parts in
  if truthy start_date && truthy end_date then
    match format_dates (cast_str start_date) (cast_str end_date) with
    | Ok (start_date_formatted, end_date_formatted) =>
        Ok (query_parts ++
            ["submittedDate:[" +:+ start_date_formatted +:+ " TO "
               +:+ end_date_formatted +:+ "]"])
    | Raise _ => Raise (ValueError "Invalid date format. Please use YYYY-MM-DD.")
    end
  else Ok query_parts.

Section Backends.

(** [ET.fromstring] *)
Variable fromstring : string → option Xml.Element.

(** the HTTP capability: the body of the answer, or [HTTPError] when the
    transport or [raise_for_status] fails *)
Variable transport : Request → result string.

(** the decoding of the semantic backend's JSON answer into records
    ([response.json()], the date conversion and the construction of
    each [ArxivPaper]) *)
Variable decode_papers : string → result (list ArxivPaper).

Definition send (request : Request) : M string :=
  λ log, (transport request, log ++ [request]).

Definition ArxivClient_search
    (self : ArxivClient) (query : string) (max_results start : Z)
    (sort_by sort_order : string) : M (list ArxivPaper) :=
  if (15 <? max_results) || (max_results <? 1)
  then raise (ValueError "Number of results per page must be between 1 and 15")
  else if start <? 0
  then raise (ValueError "Start index must be greater than or equal to 0")
  else
    let params :=
      [ ("search_query", VStr query);
        ("start", VInt start);
        ("max_results", VInt max_results);
        ("sortBy", VStr sort_by);
        ("sortOrder", VStr sort_order) ] in
    response_text <~ send (GET (arxiv_base_url self) params) ;;
    lift (_parse_response fromstring response_text).

(** [{k: v for k, v in payload.items() if v is not None}] *)
Definition drop_none (payload : list (string * option Value)) : list (string * Value) :=
  omap (λ item : string * option Value, (λ v, (item.1, v)) <$> item.2) payload.

Definition SemanticSearchClient_search
    (self : SemanticSearchClient) (query : string) (page page_size : Z)
    (use_rewrite : bool) (categories : option (list string))
    (start_time end_time : option string) : M (list ArxivPaper) :=
  if negb (nonempty (strip query))
  then raise (ValueError "Query content cannot be empty")
  else if page <? 1
  then raise (ValueError "Page number must be greater than or equal to 1")
  else if (page_size <? 1) || (15 <? page_size)
  then raise (ValueError "Number of results per page must be between 1 and 15")
  else if truthy start_time && truthy end_time
          && str_gt (cast_str start_time) (cast_str end_time)
  then raise (ValueError "Start date cannot be later than end date")
  else
    let payload :=
      drop_none
        [ ("query", Some (VStr query));
          ("page", Some (VInt page));
          ("page_size", Some (VInt page_size));
          ("search_by_paper", Some (VBool false));
          ("use_rewrite", Some (VBool use_rewrite));
          ("categories", VList <$> categories);
          ("start_time", VStr <$> start_time);
          ("end_time", VStr <$> end_time) ] in
    response_text <~ send (POST (semantic_base_url self) payload) ;;
    lift (decode_papers response_text).

(** the tool [search_keyword]; [arxiv_client] is the module-level global *)
Definition search_keyword
    (arxiv_client : option ArxivClient)
    (page page_size : Z) (sort_by sort_order : string)
    (title author abstract category start_date end_date all_fields : option string)
    : M (list ArxivPaper) :=
  match arxiv_client with
  | None => raise (RuntimeError "ArxivClient not initialized")
  | Some client =>
      match build_query_parts title author abstract category all_fields
                              start_date end_date with
      | Raise e => raise e
      | Ok query_parts =>
          if bool_decide (query_parts = [])
          then raise (ValueError
                 "At least one search criterion (title, author, etc.) must be provided.")
          else
            let query := String.concat " AND " query_parts in
            let start := (page - 1) * page_size in
            let max_results := page_size in
            ArxivClient_search client query max_results start sort_by sort_order
      end
  end.

(** the tool [search_semantic] *)
Definition search_semantic
    (semantic_search_client : option SemanticSearchClient)
    (query : string) (page page_size : Z) (use_rewrite : bool)
    (categories : option (list string)) (start_time end_time : option string)
    : M (list ArxivPaper) :=
  match semantic_search_client with
  | None => raise (RuntimeError "SemanticSearchClient not initialized")
  | Some client =>
      SemanticSearchClient_search client query page page_size use_rewrite
                                  categories start_time end_time
  end.

End Backends.

End Orchestration.

(** ** Single-paper lookup and the life cycle of the clients:
       [ArxivClient.get_details], the tools [get_details] and
       [get_categories], [startup], [shutdown] *)

Module Server.
Import Py Models Parser Orchestration.






(** the tool [get_categories]: the table needs no request, the tool still
    wants the client *)
Definition get_categories
    (arxiv_client : option ArxivClient) (major_category : option string)
    : result (gmap string string) :=
  match arxiv_client with
  | None => Raise (RuntimeError "ArxivClient not initialized")
  | Some _ => Ok (Taxonomy.get_categories major_category)
  end.

Section Clock.

(** the wall clock and the formatter of the standard library, which may
    refuse a format *)
Variable DateTime : Type.
Variable now : DateTime.
Variable strftime : DateTime → string → result string.


End Clock.

Section Backends.

Variable fromstring : string → option Xml.Element.
Variable transport : Request → result string.

(** [ArxivClient.get_details] *)
Definition ArxivClient_get_details
    (self : ArxivClient) (arxiv_id : string) : M (option ArxivPaper) :=
  let normalized_id := Normalizer.normalize_arxiv_id arxiv_id in
  let params := [ ("id_list", VStr normalized_id) ] in
  response_text <~ send transport (GET (arxiv_base_url self) params) ;;
  result <~ lift (_parse_response fromstring response_text) ;;
  ret (head result).

(** the tool [get_details] *)
Definition get_details
    (arxiv_client : option ArxivClient) (arxiv_id : string)
    : M (option ArxivPaper) :=
  match arxiv_client with
  | None => raise (RuntimeError "ArxivClient not initialized")
  | Some client => ArxivClient_get_details client arxiv_id
  end.

End Backends.



Section Tools.

Variable fromstring : string → option Xml.Element.
Variable transport : Request → result string.
Variable decode_papers : string → result (list ArxivPaper).
Variable DateTime : Type.
Variable now : DateTime.
Variable strftime : DateTime → string → result string.



End Tools.

End Server.

(** ** The words of the specification *)

Module Words.
Import Py Models Xml Parser Orchestration.

(** *** Identifiers *)

(** what follows a maximal run of digits is not a digit *)
Definition head_not_digit (s : string) : bool :=
  match s with
  | EmptyString => true
  | String a _ => negb (is_digit a)
  end.

(** [<digits>]: a non-empty run of decimal digits *)
Definition is_number (d : string) : bool := nonempty d && all_digits d.

(** the canonical identifier [<digits>.<digits>] *)
Definition bare (d1 d2 : string) : string := d1 +:+ "." +:+ d2.

(** what may follow the identifier in a URL: nothing, [.pdf], a query or
    a fragment, anything that does not continue the identifier *)
Definition url_tail_ok (tail : string) : bool :=
  match tail with
  | EmptyString => true
  | String a _ => negb (is_digit a) && negb (Ascii.eqb a "v")
  end.

(** The accepted spellings of the identifier [d1.d2], with version [d3]
    where a version is written: bare, versioned, abstract-page URL and PDF
    URL, each with or without the version suffix. *)
Inductive accepted_spelling (d1 d2 d3 : string) : string → Prop :=
| spelled_bare : accepted_spelling d1 d2 d3 (bare d1 d2)
| spelled_versioned : accepted_spelling d1 d2 d3 (bare d1 d2 +:+ "v" +:+ d3)
| spelled_url (scheme host kind ver tail : string) :
    In scheme ["http://"; "https://"] →
    In host ["arxiv.org/"; "www.arxiv.org/"; "export.arxiv.org/"] →
    In kind ["abs/"; "pdf/"] →
    In ver [""; "v" +:+ d3] →
    url_tail_ok tail = true →
    accepted_spelling d1 d2 d3
      (scheme +:+ host +:+ kind +:+ bare d1 d2 +:+ ver +:+ tail).

(** the shapes group 1 of the URL pattern can take *)
Definition is_id_or_versioned (g : string) : Prop :=
  ∃ d1 d2, is_number d1 = true ∧ is_number d2 = true ∧
    (g = bare d1 d2 ∨
     ∃ d3, is_number d3 = true ∧ g = bare d1 d2 +:+ "v" +:+ d3).

(** the first [if] of the normalizer rewrites its input: the text is a
    URL and the search finds the pattern in it *)
Definition url_matched (x : string) : bool :=
  (startswith x "http://" || startswith x "https://")
  && bool_decide (is_Some (Normalizer.search_url x)).





(** *** Categories *)

(** the selection the specification describes: the code starts with the
    filter followed by a dot, without regard to case, or is the bare
    major code *)
Definition selected_by (filter code : string) : bool :=
  startswith (lower code) (lower filter +:+ ".") || String.eqb code (lower filter).

(** the major category of a code: what precedes its first dot *)
Definition major_of (code : string) : string := split_head "." code.

(** the twenty major categories of the table *)
Definition major_categories : list string :=
  ["cs"; "econ"; "eess"; "math"; "astro-ph"; "cond-mat"; "gr-qc"; "hep-ex";
   "hep-lat"; "hep-ph"; "hep-th"; "math-ph"; "nlin"; "nucl-ex"; "nucl-th";
   "physics"; "q-bio"; "q-fin"; "quant-ph"; "stat"].

(** *** Entries of the Atom feed *)

Definition missing_or_empty (t : string) (entry : Element) : bool :=
  negb (truthy (_safe_get_text (find t entry))).

Definition lacks_authors (entry : Element) : bool :=
  bool_decide (author_names entry = []).

Definition lacks_categories (entry : Element) : bool :=
  bool_decide (category_terms entry = []).

(** an entry the parser must skip: identifier, title, abstract or
    published timestamp missing or empty, no author, or no category term *)
Definition incomplete (entry : Element) : bool :=
  missing_or_empty (atom "id") entry
  || missing_or_empty (atom "title") entry
  || missing_or_empty (atom "summary") entry
  || missing_or_empty (atom "published") entry
  || lacks_authors entry
  || lacks_categories entry.

(** the text of the published timestamp of an entry, when it is present *)
Definition published_text (entry : Element) : option string :=
  _safe_get_text (find (atom "published") entry).

(** the timestamp conversion accepts the text *)
Definition timestamp_accepted (s : string) : bool :=
  match _parse_datetime s with Ok _ => true | Raise _ => false end.

(** an entry with nothing missing whose timestamp the conversion accepts *)
Definition sound_entry (entry : Element) : bool :=
  negb (incomplete entry) && timestamp_accepted (cast_str (published_text entry)).

(** the document-level part of [_parse_response] goes through: the total
    count is there and is an integer *)
Definition total_results_ok (root : Element) : bool :=
  match _safe_get_text (find_below (opensearch "totalResults") root) with
  | Some count => bool_decide (is_Some (int_of_str count))
  | None => false
  end.

(** the entries of a document *)
Definition entries_of (root : Element) : list Element :=
  findall_below (atom "entry") root.

(** the identifier of the record an entry yields, when it yields one *)
Definition parsed_id (entry : Element) : option string :=
  match _parse_entry entry with
  | Ok (Some paper) => Some (arxiv_id paper)
  | _ => None
  end.

(** the strict form [YYYY-MM-DDTHH:MM:SSZ] *)
Definition strict_timestamp (s : string) : bool :=
  match s with
  | String y1 (String y2 (String y3 (String y4 (String "-"
    (String m1 (String m2 (String "-"
    (String d1 (String d2 (String "T"
    (String h1 (String h2 (String ":"
    (String n1 (String n2 (String ":"
    (String s1 (String s2 (String "Z" EmptyString))))))))))))))))))) =>
      forallb is_digit [y1; y2; y3; y4; m1; m2; d1; d2; h1; h2; n1; n2; s1; s2]
  | _ => false
  end.

(** the form [YYYY-MM-DD] of the dates of a keyword search *)
Definition is_ymd (s : string) : bool :=
  match s with
  | String y1 (String y2 (String y3 (String y4 (String "-"
    (String m1 (String m2 (String "-"
    (String d1 (String d2 EmptyString))))))))) =>
      forallb is_digit [y1; y2; y3; y4; m1; m2; d1; d2]
  | _ => false
  end.

(** a segment with its trailing [v<digits>] removed, as the specification
    words the derivation of an identifier; a segment without such a
    suffix is left as it is *)
Definition remove_version_suffix (segment : string) : string :=
  let '(d, rest) := span_digits (String.rev segment) in
  match rest with
  | String "v" base => if nonempty d then String.rev base else segment
  | _ => segment
  end.

(** *** Search operations *)

Definition is_ValueError {A} (r : result A) : Prop :=
  ∃ msg, r = Raise (ValueError msg).

Definition page_size_in_range (page_size : Z) : Prop := 1 <= page_size <= 15.

Definition missing_criteria : exn :=
  ValueError "At least one search criterion (title, author, etc.) must be provided.".

Definition page_size_out_of_range : exn :=
  ValueError "Number of results per page must be between 1 and 15".

(** every search field of a keyword search is empty or absent *)
Definition no_search_field (title author abstract category all_fields : option string) : bool :=
  negb (truthy title || truthy author || truthy abstract
        || truthy category || truthy all_fields).

(** the clause of an optional field: one clause when the field is there
    and not empty, none otherwise *)
Definition clause_of (render : string → string) (field : option string) : list string :=
  if truthy field then [render (cast_str field)] else [].

(** the date-range clause, when both dates are given *)
Definition range_clause (start_date end_date : option string) : list string :=
  if truthy start_date && truthy end_date
  then ["submittedDate:[" +:+ (delete_all "-" (cast_str start_date) +:+ "0000")
          +:+ " TO " +:+ (delete_all "-" (cast_str end_date) +:+ "2359") +:+ "]"]
  else [].

(** the clauses in the fixed order: title, author, abstract, category,
    all fields, date range *)
Definition clauses_in_order
    (title author abstract category all_fields start_date end_date : option string)
    : list string :=
  clause_of (quoted_clause "ti") title
  ++ clause_of (quoted_clause "au") author
  ++ clause_of (quoted_clause "abs") abstract
  ++ clause_of (plain_clause "cat") category
  ++ clause_of (plain_clause "all") all_fields
  ++ range_clause start_date end_date.

(** the GET request of a keyword search *)
Definition keyword_request
    (client : ArxivClient) (query : string) (page page_size : Z)
    (sort_by sort_order : string) : Request :=
  GET (arxiv_base_url client)
      [ ("search_query", VStr query);
        ("start", VInt ((page - 1) * page_size));
        ("max_results", VInt page_size);
        ("sortBy", VStr sort_by);
        ("sortOrder", VStr sort_order) ].

(** the POST request of a semantic search: the optional fields that are
    absent are left out of the body *)
Definition semantic_request
    (client : SemanticSearchClient) (query : string) (page page_size : Z)
    (use_rewrite : bool) (categories : option (list string))
    (start_time end_time : option string) : Request :=
  POST (semantic_base_url client)
       ([ ("query", VStr query);
          ("page", VInt page);
          ("page_size", VInt page_size);
          ("search_by_paper", VBool false);
          ("use_rewrite", VBool use_rewrite) ]
        ++ option_list ((λ l, ("categories", VList l)) <$> categories)
        ++ option_list ((λ s, ("start_time", VStr s)) <$> start_time)
        ++ option_list ((λ s, ("end_time", VStr s)) <$> end_time)).

(** both times are given and the start is after the end *)
Definition times_out_of_order (start_time end_time : option string) : bool :=
  truthy start_time && truthy end_time
  && str_gt (cast_str start_time) (cast_str end_time).

(** *** Further words, for the facts beyond the claims *)

(** eight digits: a date with its dashes removed *)
Definition is_date8 (s : string) : bool :=
  (String.length s =? 8)%nat && all_digits s.

(** the digits of a date YYYY-MM-DD: its year, its month and its day *)
Definition date_digits (s : string) : string :=
  String.substring 0 4 s +:+ String.substring 5 2 s +:+ String.substring 8 2 s.

(** the characters of a text that are not dashes, in their order *)
Definition without_dashes (s : string) : list ascii :=
  List.filter (λ c, negb (Ascii.eqb c "-")) (list_ascii_of_string s).

(** the value a dictionary given by its items has at a key *)
Fixpoint item_at (key : string) (items : list (string * Value)) : option Value :=
  match items with
  | [] => None
  | (k, v) :: rest => if String.eqb k key then Some v else item_at key rest
  end.

(** the body of a POST request, the parameters of a GET request *)
Definition items_of (request : Request) : list (string * Value) :=
  match request with
  | GET _ params => params
  | POST _ json => json
  end.

(** the GET request of a single-paper lookup *)
Definition details_request (client : ArxivClient) (arxiv_id : string) : Request :=
  GET (arxiv_base_url client)
      [ ("id_list", VStr (Normalizer.normalize_arxiv_id arxiv_id)) ].

(** an entry yields a record *)
Definition yields_record (entry : Element) : bool :=
  match _parse_entry entry with
  | Ok (Some _) => true
  | _ => false
  end.

(** a strict timestamp of a year from 1000 on *)
Definition four_digit_year (s : string) : bool :=
  match s with
  | String y1 _ => negb (Ascii.eqb y1 "0")
  | EmptyString => false
  end.

(** the first [n] characters of a text *)
Fixpoint take_chars (n : nat) (s : string) : string :=
  match n, s with
  | S k, String a r => String a (take_chars k r)
  | _, _ => EmptyString
  end.

End Words.

(** ** Sample documents *)

Module Samples.
Import Py Xml.

Definition leaf (t x : string) : Element := Elem t ∅ (Some x) [].

Definition author (name : string) : Element :=
  Elem (atom "author") ∅ None [leaf (atom "name") name].

Definition category (term : string) : Element :=
  Elem (atom "category") {[ "term" := term ]} None [].

Definition entry
    (id title summary published : string) (authors categories : list string)
    : Element :=
  Elem (atom "entry") ∅ None
       ([ leaf (atom "id") id;
          leaf (atom "title") title;
          leaf (atom "summary") summary;
          leaf (atom "published") published ]
        ++ (author <$> authors) ++ (category <$> categories)).

Definition feed (total : string) (entries : list Element) : Element :=
  Elem (atom "feed") ∅ None (leaf (opensearch "totalResults") total :: entries).

Definition entry_one : Element :=
  entry "http://arxiv.org/abs/2301.00001v1" " First paper " "An abstract."
        "2023-01-02T03:04:05Z" ["Ada Lovelace"; "Alan Turing"] ["cs.AI"; "cs.LG"].

Definition entry_without_authors : Element :=
  entry "http://arxiv.org/abs/2301.00002v1" "Second paper" "Another abstract."
        "2023-01-03T00:00:00Z" [] ["math.CO"].

Definition entry_three : Element :=
  entry "http://arxiv.org/abs/2301.00003v2" "Third paper" "A third abstract."
        "2023-01-04T12:00:00Z" ["Emmy Noether"] ["math.AC"].

Definition feed_of_three : Element :=
  feed "3" [entry_one; entry_without_authors; entry_three].

(** an entry complete but for the form of its timestamp *)
Definition entry_bad_timestamp : Element :=
  entry "http://arxiv.org/abs/2301.00004v1" "Fourth paper" "A fourth abstract."
        "2023-01-05 10:20:30" ["Kurt Goedel"] ["math.LO"].

Definition feed_bad_timestamp : Element :=
  feed "1" [entry_bad_timestamp].

(** an entry whose identifier has a [v] that does not start a version *)
Definition entry_odd_id : Element :=
  entry "http://arxiv.org/abs/2301.00001vx" "Fifth paper" "A fifth abstract."
        "2023-01-06T00:00:00Z" ["Alonzo Church"] ["cs.LO"].

End Samples.

(** * Part II: facts *)

(** ** The string built-ins on sample texts *)

Section BuiltinExamples.
Import Py.

Example replace_dashes : delete_all "-" "2023-01-31" = "20230131".
Proof. reflexivity. Qed.

Example replace_without_overlap : delete_all "aa" "aaa" = "a".
Proof. reflexivity. Qed.

Example replace_suffix : delete_all ".pdf" "2201.00001.pdf" = "2201.00001".
Proof. reflexivity. Qed.

Example split_first_part : split_head "v" "2301.00001v2" = "2301.00001".
Proof. reflexivity. Qed.

Example split_last_part :
  split_last "/" "http://arxiv.org/abs/2301.00001v2" = "2301.00001v2"
  ∧ split_last "/" "2301.00001" = "2301.00001"
  ∧ split_last "/" "http://arxiv.org/abs/" = "".
Proof. repeat split; reflexivity. Qed.

Example strip_both_ends :
  strip (String "009" "  a title ") = "a title" ∧ strip "   " = "".
Proof. split; reflexivity. Qed.

Example lower_mixed : lower "Astro-PH" = "astro-ph".
Proof. reflexivity. Qed.

Example int_literals :
  int_of_str " 42 " = Some 42 ∧ int_of_str "-1_000" = Some (-1000)
  ∧ int_of_str "" = None ∧ int_of_str "12a" = None ∧ int_of_str "1__0" = None.
Proof. repeat split; reflexivity. Qed.

Example text_order :
  str_gt "2023-02-01" "2023-01-31" = true ∧ str_gt "9" "10" = true
  ∧ str_gt "" "a" = false ∧ str_gt "a" "a" = false.
Proof. repeat split; reflexivity. Qed.

End BuiltinExamples.

(** ** Facts about the string built-ins *)

Section StringFacts.
Import Py Words.

Lemma app_cons (a : ascii) (s t : string) :
  String a s +:+ t = String a (s +:+ t).
Proof. reflexivity. Qed.

Lemma app_empty_l (t : string) : "" +:+ t = t.
Proof. reflexivity. Qed.

Lemma app_empty_r (s : string) : s +:+ "" = s.
Proof. induction s as [|a s IH]; [reflexivity|]. rewrite app_cons, IH. reflexivity. Qed.

Lemma app_assoc_str (s t u : string) : (s +:+ t) +:+ u = s +:+ t +:+ u.
Proof.
  induction s as [|a s IH]; [reflexivity|].
  rewrite !app_cons, IH. reflexivity.
Qed.

Lemma span_digits_app (d rest : string) :
  all_digits d = true → head_not_digit rest = true →
  span_digits (d +:+ rest) = (d, rest).
Proof.
  induction d as [|a d IH]; intros Hd Hr.
  - rewrite app_empty_l. destruct rest as [|b rest]; [reflexivity|].
    simpl in *. apply negb_true_iff in Hr. rewrite Hr. reflexivity.
  - simpl in Hd. apply andb_true_iff in Hd as [Ha Hd].
    rewrite app_cons. simpl. rewrite Ha, (IH Hd Hr). reflexivity.
Qed.

Lemma span_digits_inv (s d rest : string) :
  span_digits s = (d, rest) →
  s = d +:+ rest ∧ all_digits d = true ∧ head_not_digit rest = true.
Proof.
  revert d rest. induction s as [|a s IH]; intros d rest H; simpl in H.
  - inversion H; subst. auto.
  - destruct (is_digit a) eqn:Ha.
    + destruct (span_digits s) as [d' rest'] eqn:Hs.
      inversion H; subst. destruct (IH _ _ eq_refl) as (-> & Hd & Hr).
      simpl. rewrite Ha, Hd. auto.
    + inversion H; subst. simpl. rewrite Ha. auto.
Qed.

Lemma contains_app (c : ascii) (s t : string) :
  contains c (s +:+ t) = contains c s || contains c t.
Proof.
  induction s as [|a s IH]; [reflexivity|].
  rewrite app_cons. simpl. rewrite IH, orb_assoc. reflexivity.
Qed.

Lemma all_digits_no_letter (c : ascii) (d : string) :
  is_digit c = false → all_digits d = true → contains c d = false.
Proof.
  intros Hc. induction d as [|a d IH]; [reflexivity|]. simpl.
  intros [Ha Hd]%andb_true_iff. rewrite (IH Hd), orb_false_r.
  apply Ascii.eqb_neq. intros ->. congruence.
Qed.

Lemma split_head_app (c : ascii) (s t : string) :
  contains c s = false → split_head c (s +:+ String c t) = s.
Proof.
  induction s as [|a s IH]; cbn [contains].
  - intros _. rewrite app_empty_l. cbn [split_head].
    rewrite Ascii.eqb_refl. reflexivity.
  - intros [Ha Hs]%orb_false_iff. rewrite app_cons. cbn [split_head].
    rewrite Ha, (IH Hs). reflexivity.
Qed.

Lemma split_head_absent (c : ascii) (s : string) :
  contains c s = false → split_head c s = s.
Proof.
  induction s as [|a s IH]; simpl; [reflexivity|].
  intros [Ha Hs]%orb_false_iff. rewrite Ha, (IH Hs). reflexivity.
Qed.

Lemma split_last_absent (c : ascii) (s : string) :
  contains c s = false → split_last c s = s.
Proof. destruct s as [|a s]; simpl; [reflexivity|]. intros ->. reflexivity. Qed.

Lemma split_last_app (c : ascii) (s t : string) :
  contains c t = false → split_last c (s +:+ String c t) = t.
Proof.
  intros Ht. induction s as [|a s IH].
  - rewrite app_empty_l. cbn [split_last contains].
    rewrite Ascii.eqb_refl. cbn [orb]. apply split_last_absent, Ht.
  - rewrite app_cons. cbn [split_last].
    assert (contains c (String a (s +:+ String c t)) = true) as ->; [|exact IH].
    cbn [contains]. rewrite contains_app. cbn [contains].
    rewrite Ascii.eqb_refl, orb_true_l, !orb_true_r. reflexivity.
Qed.

End StringFacts.

(** ** Facts about the identifier normalizer *)

Section NormalizerFacts.
Import Py Normalizer Words.

Lemma is_number_inv (d : string) :
  is_number d = true →
  all_digits d = true ∧ nonempty d = true ∧
  ∃ a r, d = String a r ∧ is_digit a = true.
Proof.
  intros [Hn Hd]%andb_true_iff. repeat split; try assumption.
  destruct d as [|a r]; [discriminate|]. exists a, r.
  simpl in Hd. apply andb_true_iff in Hd as [Ha _]. auto.
Qed.

Lemma match_number_app (d1 d2 rest : string) :
  is_number d1 = true → is_number d2 = true → head_not_digit rest = true →
  match_number (d1 +:+ "." +:+ d2 +:+ rest) = Some (bare d1 d2, rest).
Proof.
  intros (Hd1 & Hn1 & _)%is_number_inv (Hd2 & Hn2 & _)%is_number_inv Hr.
  unfold match_number.
  rewrite (span_digits_app d1 ("." +:+ d2 +:+ rest) Hd1 eq_refl), Hn1.
  change ("." +:+ d2 +:+ rest) with (String "." (d2 +:+ rest)).
  cbv iota beta. rewrite (span_digits_app d2 rest Hd2 Hr), Hn2. reflexivity.
Qed.

Lemma match_number_inv (s num rest : string) :
  match_number s = Some (num, rest) →
  ∃ d1 d2, is_number d1 = true ∧ is_number d2 = true ∧
           num = bare d1 d2 ∧ s = num +:+ rest ∧ head_not_digit rest = true.
Proof.
  unfold match_number. intros H.
  destruct (span_digits s) as [d1 r1] eqn:H1.
  destruct (nonempty d1) eqn:Hn1; [|discriminate].
  destruct r1 as [|c r2]; [discriminate|].
  destruct (Ascii.eqb_spec c ".") as [->|Hc].
  2:{ destruct c as [[] [] [] [] [] [] [] []]; try discriminate. contradiction. }
  destruct (span_digits r2) as [d2 r3] eqn:H2.
  destruct (nonempty d2) eqn:Hn2; [|discriminate].
  inversion H; subst. clear H.
  apply span_digits_inv in H1 as (-> & Hd1 & _).
  apply span_digits_inv in H2 as (-> & Hd2 & Hr).
  exists d1, d2. unfold is_number, bare. rewrite Hn1, Hn2, Hd1, Hd2.
  repeat split; try assumption.
  rewrite !app_assoc_str. reflexivity.
Qed.

Lemma digit_head_not_url (d r : string) :
  is_number d = true →
  startswith (d +:+ r) "http://" || startswith (d +:+ r) "https://" = false.
Proof.
  intros (_ & _ & a & d' & -> & Ha)%is_number_inv.
  rewrite app_cons. cbn [startswith].
  assert (Ascii.eqb a "h" = false) as ->; [|reflexivity].
  apply Ascii.eqb_neq. intros ->. discriminate.
Qed.

Lemma bare_no_v (d1 d2 : string) :
  is_number d1 = true → is_number d2 = true → contains "v" (bare d1 d2) = false.
Proof.
  intros (Hd1 & _)%is_number_inv (Hd2 & _)%is_number_inv.
  unfold bare. rewrite !contains_app.
  rewrite (all_digits_no_letter "v" d1 eq_refl Hd1).
  rewrite (all_digits_no_letter "v" d2 eq_refl Hd2). reflexivity.
Qed.

Lemma bare_no_p (d1 d2 : string) :
  is_number d1 = true → is_number d2 = true → contains "p" (bare d1 d2) = false.
Proof.
  intros (Hd1 & _)%is_number_inv (Hd2 & _)%is_number_inv.
  unfold bare. rewrite !contains_app.
  rewrite (all_digits_no_letter "p" d1 eq_refl Hd1).
  rewrite (all_digits_no_letter "p" d2 eq_refl Hd2). reflexivity.
Qed.

(** the bare form is a fixed point *)
Lemma normalize_bare_fixed (d1 d2 : string) :
  is_number d1 = true → is_number d2 = true →
  normalize_arxiv_id (bare d1 d2) = bare d1 d2.
Proof.
  intros H1 H2. unfold normalize_arxiv_id, extract_from_url.
  unfold bare at 1 2. rewrite (digit_head_not_url d1 _ H1).
  unfold strip_version_suffix.
  rewrite (bare_no_v d1 d2 H1 H2). reflexivity.
Qed.

Lemma match_versioned_app (d1 d2 d3 : string) :
  is_number d1 = true → is_number d2 = true → is_number d3 = true →
  match_versioned (bare d1 d2 +:+ "v" +:+ d3) = true.
Proof.
  intros H1 H2 H3. unfold match_versioned, bare.
  rewrite !app_assoc_str.
  rewrite (match_number_app d1 d2 ("v" +:+ d3) H1 H2 eq_refl).
  change ("v" +:+ d3) with (String "v" d3).
  apply is_number_inv in H3 as (Hd3 & Hn3 & _).
  rewrite <- (app_empty_r d3) at 1.
  rewrite (span_digits_app d3 "" Hd3 eq_refl), Hn3. reflexivity.
Qed.

Lemma split_version (d1 d2 rest : string) :
  is_number d1 = true → is_number d2 = true →
  split_head "v" (bare d1 d2 +:+ "v" +:+ rest) = bare d1 d2.
Proof.
  intros H1 H2. change ("v" +:+ rest) with (String "v" rest).
  apply split_head_app, bare_no_v; assumption.
Qed.

(** the versioned form loses its suffix *)
Lemma normalize_versioned_bare (d1 d2 d3 : string) :
  is_number d1 = true → is_number d2 = true → is_number d3 = true →
  normalize_arxiv_id (bare d1 d2 +:+ "v" +:+ d3) = bare d1 d2.
Proof.
  intros H1 H2 H3. unfold normalize_arxiv_id, extract_from_url.
  assert (startswith (bare d1 d2 +:+ "v" +:+ d3) "http://"
          || startswith (bare d1 d2 +:+ "v" +:+ d3) "https://" = false) as ->.
  { unfold bare. rewrite !app_assoc_str. apply digit_head_not_url, H1. }
  unfold strip_version_suffix.
  rewrite (match_versioned_app d1 d2 d3 H1 H2 H3).
  rewrite contains_app. change (contains "v" ("v" +:+ d3)) with true.
  rewrite orb_true_r. cbn [andb]. apply split_version; assumption.
Qed.

Lemma startswith_absent (b : ascii) (p r : string) :
  contains b r = false → startswith r (String b p) = false.
Proof.
  destruct r as [|x r']; [reflexivity|]. cbn [contains startswith].
  intros [-> _]%orb_false_iff. reflexivity.
Qed.

Lemma delete_all_absent2 (a b : ascii) (p s : string) :
  contains b s = false → delete_all (String a (String b p)) s = s.
Proof.
  unfold delete_all. induction s as [|c r IH]; [reflexivity|].
  intros [Hc Hr]%orb_false_iff. cbn [delete_from].
  change (startswith (String c r) (String a (String b p)))
    with (Ascii.eqb c a && startswith r (String b p)).
  rewrite (startswith_absent b p r Hr), andb_false_r, (IH Hr). reflexivity.
Qed.

Lemma match_version_opt_inv (s : string) :
  fst (match_version_opt s) = "" ∨
  ∃ d3, is_number d3 = true ∧ fst (match_version_opt s) = "v" +:+ d3.
Proof.
  unfold match_version_opt. destruct s as [|c r]; [left; reflexivity|].
  destruct (Ascii.eqb_spec c "v") as [->|Hc].
  2:{ left. destruct c as [[] [] [] [] [] [] [] []]; try reflexivity. contradiction. }
  destruct (span_digits r) as [d rest] eqn:Hs.
  destruct (nonempty d) eqn:Hn; [|left; reflexivity].
  right. exists d. apply span_digits_inv in Hs as (_ & Hd & _).
  unfold is_number. rewrite Hn, Hd. split; reflexivity.
Qed.

Lemma match_url_here_inv (s g : string) :
  match_url_here s = Some g → is_id_or_versioned g.
Proof.
  unfold match_url_here. intros H.
  destruct (eat "arxiv.org/" s) as [r0|]; [|discriminate].
  destruct (match eat "abs" r0 with Some r => Some r | None => eat "pdf" r0 end)
    as [r1|]; [|discriminate].
  destruct (eat "/" r1) as [r2|]; [|discriminate].
  destruct (match_number r2) as [[num r3]|] eqn:Hnum; [|discriminate].
  inversion H; subst. clear H.
  apply match_number_inv in Hnum as (d1 & d2 & H1 & H2 & -> & _ & _).
  exists d1, d2. split; [assumption|]. split; [assumption|].
  destruct (match_version_opt_inv r3) as [-> | (d3 & H3 & ->)].
  - left. apply app_empty_r.
  - right. exists d3. auto.
Qed.

Lemma search_url_inv (s g : string) :
  search_url s = Some g → is_id_or_versioned g.
Proof.
  induction s as [|a s IH]; cbn [search_url]; intros H.
  - destruct (match_url_here "") eqn:Hm; [|discriminate].
    inversion H; subst. eapply match_url_here_inv, Hm.
  - destruct (match_url_here (String a s)) eqn:Hm.
    + inversion H; subst. eapply match_url_here_inv, Hm.
    + apply IH, H.
Qed.

Lemma versioned_no_p (d1 d2 d3 : string) :
  is_number d1 = true → is_number d2 = true → is_number d3 = true →
  contains "p" (bare d1 d2 +:+ "v" +:+ d3) = false.
Proof.
  intros H1 H2 (Hd3 & _)%is_number_inv.
  rewrite !contains_app, (bare_no_p d1 d2 H1 H2).
  rewrite (all_digits_no_letter "p" d3 eq_refl Hd3). reflexivity.
Qed.

Lemma strip_version_suffix_bare (d1 d2 : string) :
  is_number d1 = true → is_number d2 = true →
  strip_version_suffix (bare d1 d2) = bare d1 d2.
Proof.
  intros H1 H2. unfold strip_version_suffix.
  rewrite (bare_no_v d1 d2 H1 H2). reflexivity.
Qed.

Lemma strip_version_suffix_versioned (d1 d2 d3 : string) :
  is_number d1 = true → is_number d2 = true → is_number d3 = true →
  strip_version_suffix (bare d1 d2 +:+ "v" +:+ d3) = bare d1 d2.
Proof.
  intros H1 H2 H3. unfold strip_version_suffix.
  rewrite (match_versioned_app d1 d2 d3 H1 H2 H3).
  rewrite contains_app. change (contains "v" ("v" +:+ d3)) with true.
  rewrite orb_true_r. cbn [andb]. apply split_version; assumption.
Qed.

(** whatever the first step extracts from a URL, the result of the two
    steps is the bare form *)
Lemma normalize_of_group (x g : string) :
  startswith x "http://" || startswith x "https://" = true →
  search_url x = Some g →
  ∃ d1 d2, is_number d1 = true ∧ is_number d2 = true ∧
           (g = bare d1 d2 ∨ ∃ d3, is_number d3 = true ∧ g = bare d1 d2 +:+ "v" +:+ d3) ∧
           normalize_arxiv_id x = bare d1 d2.
Proof.
  intros Hurl Hs. unfold normalize_arxiv_id, extract_from_url.
  rewrite Hurl, Hs.
  destruct (search_url_inv _ _ Hs) as (d1 & d2 & H1 & H2 & Hg).
  exists d1, d2. split; [assumption|]. split; [assumption|]. split; [exact Hg|].
  destruct Hg as [-> | (d3 & H3 & ->)].
  - rewrite (delete_all_absent2 "." "p" "df" _ (bare_no_p d1 d2 H1 H2)).
    apply strip_version_suffix_bare; assumption.
  - rewrite (delete_all_absent2 "." "p" "df" _ (versioned_no_p d1 d2 d3 H1 H2 H3)).
    apply strip_version_suffix_versioned; assumption.
Qed.

Lemma strip_version_suffix_canonical (y : string) :
  strip_version_suffix y = y ∨
  ∃ d1 d2, is_number d1 = true ∧ is_number d2 = true ∧
           strip_version_suffix y = bare d1 d2.
Proof.
  unfold strip_version_suffix.
  destruct (contains "v" y && match_versioned y) eqn:Hc; [|left; reflexivity].
  right. apply andb_true_iff in Hc as [_ Hm].
  unfold match_versioned in Hm.
  destruct (match_number y) as [[num rest]|] eqn:Hnum; [|discriminate].
  apply match_number_inv in Hnum as (d1 & d2 & H1 & H2 & -> & -> & _).
  exists d1, d2. split; [assumption|]. split; [assumption|].
  destruct rest as [|c r]; [discriminate|].
  destruct (Ascii.eqb_spec c "v") as [->|Hcv].
  2:{ destruct c as [[] [] [] [] [] [] [] []]; try discriminate. contradiction. }
  apply split_head_app, bare_no_v; assumption.
Qed.

(** the result is the input itself or a bare identifier *)
Lemma normalize_canonical (x : string) :
  normalize_arxiv_id x = x ∨
  ∃ d1 d2, is_number d1 = true ∧ is_number d2 = true ∧
           normalize_arxiv_id x = bare d1 d2.
Proof.
  destruct (startswith x "http://" || startswith x "https://") eqn:Hurl.
  - destruct (search_url x) as [g|] eqn:Hs.
    + destruct (normalize_of_group x g Hurl Hs) as (d1 & d2 & H1 & H2 & _ & Hn).
      right. exists d1, d2. auto.
    + unfold normalize_arxiv_id, extract_from_url. rewrite Hurl, Hs.
      apply strip_version_suffix_canonical.
  - unfold normalize_arxiv_id, extract_from_url. rewrite Hurl.
    apply strip_version_suffix_canonical.
Qed.


Lemma search_url_skip (a : ascii) (r : string) :
  Ascii.eqb a "a" = false → search_url (String a r) = search_url r.
Proof.
  intros Ha. cbn [search_url]. unfold match_url_here at 1.
  cbn [eat]. rewrite Ha. reflexivity.
Qed.

Lemma search_url_hit (s g : string) :
  match_url_here s = Some g → search_url s = Some g.
Proof. intros H. destruct s; cbn [search_url]; rewrite H; reflexivity. Qed.

Lemma match_url_here_abs (rest : string) :
  match_url_here ("arxiv.org/abs/" +:+ rest) =
  match match_number rest with
  | None => None
  | Some (num, r3) => Some (num +:+ fst (match_version_opt r3))
  end.
Proof. reflexivity. Qed.

Lemma match_url_here_pdf (rest : string) :
  match_url_here ("arxiv.org/pdf/" +:+ rest) =
  match match_number rest with
  | None => None
  | Some (num, r3) => Some (num +:+ fst (match_version_opt r3))
  end.
Proof. reflexivity. Qed.

Lemma url_tail_head (tail : string) :
  url_tail_ok tail = true → head_not_digit tail = true.
Proof.
  destruct tail as [|a r]; [reflexivity|]. simpl.
  intros [H _]%andb_true_iff. exact H.
Qed.

Lemma match_version_opt_tail (tail : string) :
  url_tail_ok tail = true → fst (match_version_opt tail) = "".
Proof.
  destruct tail as [|a r]; [reflexivity|]. cbn [url_tail_ok].
  intros [_ Hv%negb_true_iff]%andb_true_iff.
  destruct a as [[] [] [] [] [] [] [] []]; try reflexivity. discriminate.
Qed.

Lemma match_version_opt_app (d3 tail : string) :
  is_number d3 = true → url_tail_ok tail = true →
  fst (match_version_opt ("v" +:+ d3 +:+ tail)) = "v" +:+ d3.
Proof.
  intros (Hd3 & Hn3 & _)%is_number_inv Ht%url_tail_head.
  change ("v" +:+ d3 +:+ tail) with (String "v" (d3 +:+ tail)).
  unfold match_version_opt.
  rewrite (span_digits_app d3 tail Hd3 Ht), Hn3. reflexivity.
Qed.

(** group 1 on the two ways the identifier is written in a URL *)
Lemma group_of_id (d1 d2 d3 ver tail : string) :
  is_number d1 = true → is_number d2 = true → is_number d3 = true →
  In ver [""; "v" +:+ d3] → url_tail_ok tail = true →
  match match_number (bare d1 d2 +:+ ver +:+ tail) with
  | None => None
  | Some (num, r3) => Some (num +:+ fst (match_version_opt r3))
  end = Some (bare d1 d2 +:+ ver).
Proof.
  intros H1 H2 H3 Hver Ht. unfold bare at 1. rewrite !app_assoc_str.
  destruct Hver as [<- | [<- | []]].
  - rewrite app_empty_l.
    rewrite (match_number_app d1 d2 tail H1 H2 (url_tail_head _ Ht)).
    rewrite (match_version_opt_tail _ Ht). reflexivity.
  - rewrite !app_assoc_str.
    rewrite (match_number_app d1 d2 ("v" +:+ d3 +:+ tail) H1 H2 eq_refl).
    rewrite (match_version_opt_app d3 tail H3 Ht). reflexivity.
Qed.

Lemma strip_version_suffix_group (d1 d2 d3 ver : string) :
  is_number d1 = true → is_number d2 = true → is_number d3 = true →
  In ver [""; "v" +:+ d3] →
  strip_version_suffix (delete_all ".pdf" (bare d1 d2 +:+ ver)) = bare d1 d2.
Proof.
  intros H1 H2 H3 [<- | [<- | []]].
  - rewrite app_empty_r.
    rewrite (delete_all_absent2 "." "p" "df" _ (bare_no_p d1 d2 H1 H2)).
    apply strip_version_suffix_bare; assumption.
  - rewrite (delete_all_absent2 "." "p" "df" _ (versioned_no_p d1 d2 d3 H1 H2 H3)).
    apply strip_version_suffix_versioned; assumption.
Qed.

Lemma normalize_url (d1 d2 d3 scheme host kind ver tail : string) :
  is_number d1 = true → is_number d2 = true → is_number d3 = true →
  In scheme ["http://"; "https://"] →
  In host ["arxiv.org/"; "www.arxiv.org/"; "export.arxiv.org/"] →
  In kind ["abs/"; "pdf/"] →
  In ver [""; "v" +:+ d3] →
  url_tail_ok tail = true →
  normalize_arxiv_id (scheme +:+ host +:+ kind +:+ bare d1 d2 +:+ ver +:+ tail)
  = bare d1 d2.
Proof.
  intros H1 H2 H3 Hs Hh Hk Hver Ht.
  pose proof (group_of_id d1 d2 d3 ver tail H1 H2 H3 Hver Ht) as Hg.
  pose proof (strip_version_suffix_group d1 d2 d3 ver H1 H2 H3 Hver) as Hstrip.
  set (body := bare d1 d2 +:+ ver +:+ tail) in *.
  unfold normalize_arxiv_id, extract_from_url.
  assert (search_url (scheme +:+ host +:+ kind +:+ body) = Some (bare d1 d2 +:+ ver)
          ∧ startswith (scheme +:+ host +:+ kind +:+ body) "http://"
            || startswith (scheme +:+ host +:+ kind +:+ body) "https://" = true)
    as [-> ->]; [|exact Hstrip].
  destruct Hs as [<- | [<- | []]];
    destruct Hh as [<- | [<- | [<- | []]]];
    destruct Hk as [<- | [<- | []]];
    (split; [|reflexivity]);
    repeat (rewrite app_cons || rewrite app_empty_l);
    repeat (rewrite search_url_skip by reflexivity);
    apply search_url_hit;
    first [ rewrite <- Hg; apply (match_url_here_abs body)
          | rewrite <- Hg; apply (match_url_here_pdf body) ].
Qed.

End NormalizerFacts.

Section NormalizerClaim.
Import Py Normalizer Words.

(** when neither [if] of the normalizer fires the input is returned *)
Lemma normalize_no_pattern (x : string) :
  url_matched x = false → match_versioned x = false →
  normalize_arxiv_id x = x.
Proof.
  intros Hurl Hver. unfold normalize_arxiv_id.
  assert (extract_from_url x = x) as ->.
  { unfold extract_from_url. unfold url_matched in Hurl.
    apply andb_false_iff in Hurl as [-> | Hnone]; [reflexivity|].
    apply bool_decide_eq_false in Hnone.
    destruct (search_url x) as [g|].
    - exfalso. apply Hnone. eexists. reflexivity.
    - destruct (startswith x "http://" || startswith x "https://"); reflexivity. }
  unfold strip_version_suffix. rewrite Hver, andb_false_r. reflexivity.
Qed.

Lemma normalize_accepted (d1 d2 d3 x : string) :
  is_number d1 = true → is_number d2 = true → is_number d3 = true →
  accepted_spelling d1 d2 d3 x → normalize_arxiv_id x = bare d1 d2.
Proof.
  intros H1 H2 H3 Hx. destruct Hx.
  - apply normalize_bare_fixed; assumption.
  - apply normalize_versioned_bare; assumption.
  - apply (normalize_url d1 d2 d3); assumption.
Qed.

(** *** The patterns of the code against the words of the specification *)











Example normalize_bare_example :
  normalize_arxiv_id "2201.00001" = "2201.00001".
Proof. reflexivity. Qed.

Example normalize_versioned_example :
  normalize_arxiv_id "2201.00001v12" = "2201.00001".
Proof. reflexivity. Qed.

Example normalize_abs_url_example :
  normalize_arxiv_id "https://arxiv.org/abs/2201.00001v1" = "2201.00001".
Proof. reflexivity. Qed.

Example normalize_pdf_url_example :
  normalize_arxiv_id "http://arxiv.org/pdf/2201.00001.pdf" = "2201.00001".
Proof. reflexivity. Qed.

Example normalize_old_style_example :
  normalize_arxiv_id "hep-th/9901001v1" = "hep-th/9901001v1".
Proof. reflexivity. Qed.

Example normalize_other_url_example :
  normalize_arxiv_id "https://example.org/abs/2201.00001v1"
  = "https://example.org/abs/2201.00001v1".
Proof. reflexivity. Qed.

End NormalizerClaim.

(** ** Facts about the category taxonomy *)

Section TaxonomyFacts.
Import Py Taxonomy Words.

Lemma lower_ascii_idem (c : ascii) : lower_ascii (lower_ascii c) = lower_ascii c.
Proof. destruct c as [[] [] [] [] [] [] [] []]; reflexivity. Qed.

Lemma lower_idem (s : string) : lower (lower s) = lower s.
Proof.
  induction s as [|c s IH]; [reflexivity|].
  simpl. rewrite lower_ascii_idem, IH. reflexivity.
Qed.

Lemma startswith_refl (s : string) : startswith s s = true.
Proof.
  induction s as [|c s IH]; [reflexivity|].
  simpl. rewrite Ascii.eqb_refl, IH. reflexivity.
Qed.

Lemma startswith_app (s p q : string) :
  startswith s (p +:+ q) = true → startswith s p = true.
Proof.
  revert s. induction p as [|b p IH]; intros s; [reflexivity|].
  rewrite app_cons. destruct s as [|a s]; cbn [startswith]; [discriminate|].
  intros [-> H]%andb_true_iff. rewrite (IH _ H). reflexivity.
Qed.

Lemma major_categories_spec (m : string) :
  m ∈ ARXIV_MAJOR_CATEGORIES ↔ m ∈ major_categories.
Proof.
  assert (ARXIV_MAJOR_CATEGORIES = list_to_set major_categories) as ->
    by (vm_compute; reflexivity).
  apply elem_of_list_to_set.
Qed.

Lemma table_lookup_item (code desc : string) :
  ARXIV_CATEGORIES !! code = Some desc → (code, desc) ∈ ARXIV_CATEGORIES_items.
Proof. apply elem_of_list_to_map_2. Qed.

Lemma get_categories_no_filter : get_categories None = ARXIV_CATEGORIES.
Proof. reflexivity. Qed.

Lemma get_categories_empty_filter : get_categories (Some "") = ARXIV_CATEGORIES.
Proof. reflexivity. Qed.

Lemma get_categories_unknown (f : string) :
  nonempty f = true → lower f ∉ ARXIV_MAJOR_CATEGORIES →
  get_categories (Some f) = ∅.
Proof.
  intros Hf Hm. unfold get_categories. cbn [truthy cast_str default].
  rewrite Hf. rewrite decide_True by exact Hm. reflexivity.
Qed.

(** what the code returns for a known major category: the items whose
    lowered code starts with the lowered filter *)
Lemma get_categories_known (f code desc : string) :
  nonempty f = true → lower f ∈ ARXIV_MAJOR_CATEGORIES →
  get_categories (Some f) !! code = Some desc
  ↔ ARXIV_CATEGORIES !! code = Some desc ∧ startswith (lower code) (lower f) = true.
Proof.
  intros Hf Hm. unfold get_categories. cbn [truthy cast_str default].
  rewrite Hf. rewrite decide_False by (intros Hn; exact (Hn Hm)).
  rewrite map_lookup_filter_Some. reflexivity.
Qed.

Lemma selected_by_startswith (f code : string) :
  selected_by f code = true → startswith (lower code) (lower f) = true.
Proof.
  unfold selected_by. intros [H | H]%orb_true_iff.
  - eapply startswith_app, H.
  - apply String.eqb_eq in H as ->. rewrite lower_idem. apply startswith_refl.
Qed.

(** every item the specification selects is returned, and every item
    returned is an item of the table whose lowered code starts with the
    lowered filter *)
Lemma get_categories_between (f code desc : string) :
  nonempty f = true → lower f ∈ ARXIV_MAJOR_CATEGORIES →
  (ARXIV_CATEGORIES !! code = Some desc → selected_by f code = true →
   get_categories (Some f) !! code = Some desc)
  ∧ (get_categories (Some f) !! code = Some desc →
     ARXIV_CATEGORIES !! code = Some desc
     ∧ startswith (lower code) (lower f) = true).
Proof.
  intros Hf Hm. split.
  - intros Ht Hs. apply (get_categories_known f code desc Hf Hm).
    split; [exact Ht | apply selected_by_startswith, Hs].
  - apply (get_categories_known f code desc Hf Hm).
Qed.

(** on the table, a plain prefix test and the selection of the
    specification agree for every major category but [math] *)
Lemma prefix_is_selection_but_math :
  forallb
    (λ m, String.eqb m "math"
          || forallb (λ item : string * string,
                        Bool.eqb (startswith (lower item.1) m)
                                 (startswith (lower item.1) (m +:+ ".")
                                  || String.eqb item.1 m))
                     ARXIV_CATEGORIES_items)
    major_categories = true.
Proof. vm_compute. reflexivity. Qed.

(** for every known major category other than [math] the result is
    exactly the selection of the specification *)
Lemma get_categories_exact_but_math (f code desc : string) :
  nonempty f = true → lower f ∈ ARXIV_MAJOR_CATEGORIES → lower f ≠ "math" →
  get_categories (Some f) !! code = Some desc
  ↔ ARXIV_CATEGORIES !! code = Some desc ∧ selected_by f code = true.
Proof.
  intros Hf Hm Hnm. rewrite (get_categories_known f code desc Hf Hm).
  split; intros [Ht Hs]; (split; [exact Ht|]).
  2:{ apply selected_by_startswith, Hs. }
  pose proof prefix_is_selection_but_math as Hall.
  rewrite forallb_forall in Hall.
  apply major_categories_spec, list_elem_of_In in Hm.
  specialize (Hall _ Hm). apply orb_true_iff in Hall as [Hmath | Hall].
  { apply String.eqb_eq in Hmath. contradiction. }
  rewrite forallb_forall in Hall.
  apply table_lookup_item, list_elem_of_In in Ht.
  specialize (Hall _ Ht). cbn [fst] in Hall.
  apply Bool.eqb_prop in Hall. unfold selected_by. rewrite <- Hall. exact Hs.
Qed.

(** the filter is case-insensitive *)
Lemma get_categories_case (f g : string) :
  nonempty f = true → nonempty g = true → lower f = lower g →
  get_categories (Some f) = get_categories (Some g).
Proof.
  intros Hf Hg Heq. unfold get_categories, truthy, cast_str. simpl default.
  rewrite Hf, Hg, Heq. reflexivity.
Qed.

Example get_categories_cs_AI :
  get_categories (Some "cs") !! "cs.AI" = Some "Artificial Intelligence".
Proof. vm_compute. reflexivity. Qed.

Example get_categories_CS_upper :
  get_categories (Some "CS") = get_categories (Some "cs").
Proof. apply get_categories_case; reflexivity. Qed.

Lemma get_categories_cs_only (code desc : string) :
  get_categories (Some "cs") !! code = Some desc → major_of code = "cs".
Proof.
  intros H. apply elem_of_map_to_list in H.
  assert (forallb (λ item : string * string, String.eqb (major_of item.1) "cs")
                  (map_to_list (get_categories (Some "cs"))) = true) as Hall
    by (vm_compute; reflexivity).
  rewrite forallb_forall in Hall. apply list_elem_of_In in H.
  apply String.eqb_eq, (Hall _ H).
Qed.

Example get_categories_zz : get_categories (Some "zz") = ∅.
Proof. vm_compute. reflexivity. Qed.

Example get_categories_math_size :
  size (get_categories (Some "math")) = 33%nat.
Proof. vm_compute. reflexivity. Qed.

(** C3, at the major category [math].  [math] is a known major category
    and [math-ph] is another one; the code selects by the plain prefix
    [math], so [get_categories "math"] also holds the entry [math-ph],
    whose code neither starts with [math.] nor is [math], and whose major
    category is [math-ph]: the result is not exactly the entries the
    specification selects. *)
Theorem get_categories_math_holds_math_ph :
  "math" ∈ ARXIV_MAJOR_CATEGORIES
  ∧ "math-ph" ∈ ARXIV_MAJOR_CATEGORIES
  ∧ get_categories (Some "math") !! "math-ph" = Some "Mathematical Physics"
  ∧ selected_by "math" "math-ph" = false
  ∧ major_of "math-ph" = "math-ph".
Proof.
  split; [apply major_categories_spec; set_solver|].
  split; [apply major_categories_spec; set_solver|].
  split; [vm_compute; reflexivity|].
  split; reflexivity.
Qed.

End TaxonomyFacts.

(** ** Facts about the Atom response parser *)

Section ParserFacts.
Import Py Models Xml Parser Words.

Lemma parse_entries_app (l1 l2 : list Element) :
  parse_entries (l1 ++ l2) = parse_entries l1 ++ parse_entries l2.
Proof.
  induction l1 as [|e l1 IH]; [reflexivity|].
  cbn [parse_entries app]. rewrite IH.
  destruct (_parse_entry e) as [[p|]|err]; reflexivity.
Qed.

(** an entry that yields no record leaves no trace in the batch *)
Lemma parse_entries_drop (before after : list Element) (entry : Element) :
  (∀ paper, _parse_entry entry ≠ Ok (Some paper)) →
  parse_entries (before ++ entry :: after)
  = parse_entries before ++ parse_entries after.
Proof.
  intros Hno. rewrite parse_entries_app. f_equal.
  cbn [parse_entries]. destruct (_parse_entry entry) as [[p|]|err]; try reflexivity.
  exfalso. exact (Hno p eq_refl).
Qed.

Lemma required_fields_check (entry : Element) :
  forallb (λ field, truthy (_safe_get_text field)) (required_fields entry)
  = negb (missing_or_empty (atom "id") entry
          || missing_or_empty (atom "title") entry
          || missing_or_empty (atom "summary") entry
          || missing_or_empty (atom "published") entry).
Proof.
  unfold required_fields, missing_or_empty. cbn [forallb].
  destruct (truthy (_safe_get_text (find (atom "id") entry)));
    destruct (truthy (_safe_get_text (find (atom "title") entry)));
    destruct (truthy (_safe_get_text (find (atom "summary") entry)));
    destruct (truthy (_safe_get_text (find (atom "published") entry)));
    reflexivity.
Qed.

(** an incomplete entry is passed over: [_parse_entry] returns [None] *)
Lemma parse_entry_incomplete (entry : Element) :
  incomplete entry = true → _parse_entry entry = Ok None.
Proof.
  unfold incomplete, _parse_entry, lacks_authors, lacks_categories.
  rewrite required_fields_check. intros H.
  destruct (missing_or_empty (atom "id") entry
            || missing_or_empty (atom "title") entry
            || missing_or_empty (atom "summary") entry
            || missing_or_empty (atom "published") entry); [reflexivity|].
  cbn [negb orb] in *.
  destruct (bool_decide (author_names entry = [])); [reflexivity|].
  cbn [orb] in H. rewrite H. reflexivity.
Qed.

(** an entry with nothing missing is built, unless its timestamp is
    refused *)
Lemma parse_entry_complete (entry : Element) :
  incomplete entry = false →
  _parse_entry entry =
  match _parse_datetime (cast_str (published_text entry)) with
  | Raise e => Raise e
  | Ok published_date =>
      Ok (Some (ArxivPaper_init
                  (entry_arxiv_id (cast_str (_safe_get_text (find (atom "id") entry))))
                  (strip (cast_str (_safe_get_text (find (atom "title") entry))))
                  (author_names entry)
                  (strip (cast_str (_safe_get_text (find (atom "summary") entry))))
                  (category_terms entry)
                  published_date
                  (_safe_get_text (find (arxiv "comment") entry)) None None None))
  end.
Proof.
  unfold incomplete, _parse_entry, lacks_authors, lacks_categories, published_text.
  rewrite required_fields_check. intros H.
  apply orb_false_iff in H as [H Hcat].
  apply orb_false_iff in H as [H Hauth].
  rewrite H, Hauth, Hcat. reflexivity.
Qed.

Lemma parse_entry_sound (entry : Element) :
  sound_entry entry = true → ∃ paper, _parse_entry entry = Ok (Some paper).
Proof.
  unfold sound_entry, timestamp_accepted.
  intros [Hc Ht]%andb_true_iff. apply negb_true_iff in Hc.
  rewrite (parse_entry_complete entry Hc).
  destruct (_parse_datetime (cast_str (published_text entry))); [|discriminate].
  eexists. reflexivity.
Qed.


(** an entry whose timestamp is refused yields no record: it is passed
    over when something else is missing, and it raises otherwise *)
Lemma parse_entry_bad_timestamp (entry : Element) (p : string) (e : exn) :
  published_text entry = Some p → _parse_datetime p = Raise e →
  _parse_entry entry = (if incomplete entry then Ok None else Raise e).
Proof.
  intros Hp He. destruct (incomplete entry) eqn:Hi.
  - apply parse_entry_incomplete, Hi.
  - rewrite (parse_entry_complete entry Hi), Hp.
    change (cast_str (Some p)) with p. rewrite He. reflexivity.
Qed.

(** the document-level part: with the total count in place the loop runs
    and its list is returned *)
Lemma parse_response_ok (fromstring : string → option Element)
    (text : string) (root : Element) :
  fromstring text = Some root → total_results_ok root = true →
  _parse_response fromstring text = Ok (parse_entries (entries_of root)).
Proof.
  unfold _parse_response, total_results_ok, entries_of. intros -> H.
  destruct (_safe_get_text (find_below (opensearch "totalResults") root))
    as [count|]; [|discriminate].
  apply bool_decide_eq_true in H as [n Hn]. rewrite Hn. reflexivity.
Qed.

(** the document-level failures are fatal whatever the entries are *)
Lemma parse_response_fatal (fromstring : string → option Element)
    (text : string) :
  (fromstring text = None → _parse_response fromstring text = Raise ParseError)
  ∧ (∀ root, fromstring text = Some root → total_results_ok root = false →
       ∃ e, _parse_response fromstring text = Raise e).
Proof.
  unfold _parse_response, total_results_ok. split.
  - intros ->. reflexivity.
  - intros root -> H.
    destruct (_safe_get_text (find_below (opensearch "totalResults") root))
      as [count|]; [|eexists; reflexivity].
    apply bool_decide_eq_false in H.
    destruct (int_of_str count) as [n|]; [|eexists; reflexivity].
    exfalso. apply H. eexists. reflexivity.
Qed.



Example parse_three_entries :
  arxiv_id <$> parse_entries (entries_of Samples.feed_of_three)
  = ["2301.00001"; "2301.00003"].
Proof. vm_compute. reflexivity. Qed.

(** C2, as the claim states it, fails: the only entry of this well-formed
    document has a published timestamp that is present and not in the
    strict form, and the call returns the empty list of records instead of
    raising. *)
Lemma malformed_timestamp_is_not_fatal :
  entries_of Samples.feed_bad_timestamp = [Samples.entry_bad_timestamp]
  ∧ published_text Samples.entry_bad_timestamp = Some "2023-01-05 10:20:30"
  ∧ strict_timestamp "2023-01-05 10:20:30" = false
  ∧ _parse_response (λ _, Some Samples.feed_bad_timestamp) "" = Ok [].
Proof. repeat split; vm_compute; reflexivity. Qed.

(** C2, amended.  For every entry whose published timestamp is present
    and refused by the timestamp conversion, the failure stays inside the
    entry: [_parse_entry] raises when nothing else is missing (and returns
    [None] otherwise), the loop catches it, the entry is skipped, and the
    call returns the records of the other entries. *)
Theorem malformed_timestamp_entry_is_skipped
    (fromstring : string → option Element) (text : string) (root : Element)
    (before after : list Element) (entry : Element) (p : string) (e : exn) :
  fromstring text = Some root → total_results_ok root = true →
  entries_of root = before ++ entry :: after →
  published_text entry = Some p → _parse_datetime p = Raise e →
  _parse_entry entry = (if incomplete entry then Ok None else Raise e)
  ∧ _parse_response fromstring text
    = Ok (parse_entries before ++ parse_entries after).
Proof.
  intros Hroot Htotal Hsplit Hp He.
  pose proof (parse_entry_bad_timestamp entry p e Hp He) as Hentry.
  split; [exact Hentry|].
  rewrite (parse_response_ok fromstring text root Hroot Htotal), Hsplit.
  f_equal. apply parse_entries_drop. intros paper. rewrite Hentry.
  destruct (incomplete entry); discriminate.
Qed.

Lemma malformed_timestamp_entry_is_skipped_witness :
  _parse_entry Samples.entry_bad_timestamp
  = Raise (ValueError "time data does not match format '%Y-%m-%dT%H:%M:%SZ'")
  ∧ _parse_response
      (λ _, Some (Samples.feed "3" [Samples.entry_one; Samples.entry_bad_timestamp;
                                    Samples.entry_three])) ""
    = Ok (parse_entries [Samples.entry_one] ++ parse_entries [Samples.entry_three]).
Proof.
  apply (malformed_timestamp_entry_is_skipped
           (λ _, Some (Samples.feed "3" [Samples.entry_one;
                                         Samples.entry_bad_timestamp;
                                         Samples.entry_three]))
           ""
           (Samples.feed "3" [Samples.entry_one; Samples.entry_bad_timestamp;
                              Samples.entry_three])
           [Samples.entry_one] [Samples.entry_three]
           Samples.entry_bad_timestamp "2023-01-05 10:20:30"
           (ValueError "time data does not match format '%Y-%m-%dT%H:%M:%SZ'"));
    reflexivity.
Defined.

(** the conversion is not as strict as the strict form: it takes one-digit
    fields and lower-case separators *)
Example lenient_timestamp :
  strict_timestamp "2023-1-5t1:2:3z" = false
  ∧ _parse_datetime "2023-1-5t1:2:3z" = Ok "2023-01-05".
Proof. split; reflexivity. Qed.

Example strict_timestamp_converted :
  _parse_datetime "2023-01-02T03:04:05Z" = Ok "2023-01-02".
Proof. reflexivity. Qed.

Example no_such_day : timestamp_accepted "2023-02-29T00:00:00Z" = false.
Proof. reflexivity. Qed.

(** *** The identifier of a record *)

Lemma rev_app_app (s acc : string) :
  String.rev_app s acc = String.rev_app s "" +:+ acc.
Proof.
  revert acc. induction s as [|a s IH]; intros acc; [reflexivity|].
  cbn [String.rev_app]. rewrite (IH (String a acc)), (IH (String a "")).
  rewrite app_assoc_str. reflexivity.
Qed.

Lemma rev_cons (a : ascii) (s : string) :
  String.rev (String a s) = String.rev s +:+ String a "".
Proof. unfold String.rev. cbn [String.rev_app]. apply rev_app_app. Qed.

Lemma rev_app_distr (s t : string) :
  String.rev (s +:+ t) = String.rev t +:+ String.rev s.
Proof.
  induction s as [|a s IH].
  - rewrite app_empty_l, app_empty_r. reflexivity.
  - rewrite app_cons, !rev_cons, IH, app_assoc_str. reflexivity.
Qed.

Lemma rev_involutive (s : string) : String.rev (String.rev s) = s.
Proof.
  induction s as [|a s IH]; [reflexivity|].
  rewrite rev_cons, rev_app_distr, IH. reflexivity.
Qed.

Lemma all_digits_app (s t : string) :
  all_digits (s +:+ t) = all_digits s && all_digits t.
Proof.
  induction s as [|a s IH]; [reflexivity|].
  rewrite app_cons. cbn [all_digits]. rewrite IH, andb_assoc. reflexivity.
Qed.

Lemma all_digits_rev (s : string) : all_digits (String.rev s) = all_digits s.
Proof.
  induction s as [|a s IH]; [reflexivity|].
  rewrite rev_cons, all_digits_app, IH. cbn [all_digits].
  rewrite andb_true_r, andb_comm. reflexivity.
Qed.

Lemma nonempty_rev (s : string) : nonempty (String.rev s) = nonempty s.
Proof.
  destruct s as [|a s]; [reflexivity|]. rewrite rev_cons.
  destruct (String.rev s); reflexivity.
Qed.

(** where the part before a [v<digits>] suffix holds no [v], the removal
    of the suffix that the specification words is the cut at the first [v] *)
Lemma remove_version_suffix_app (base d : string) :
  is_number d = true →
  remove_version_suffix (base +:+ "v" +:+ d) = base.
Proof.
  intros [Hn Hd]%andb_true_iff. unfold remove_version_suffix.
  rewrite rev_app_distr, rev_app_distr.
  change (String.rev "v") with "v". rewrite app_assoc_str.
  rewrite (span_digits_app (String.rev d) ("v" +:+ String.rev base));
    [|rewrite all_digits_rev; exact Hd | reflexivity].
  change ("v" +:+ String.rev base) with (String "v" (String.rev base)).
  cbv iota beta. rewrite nonempty_rev, Hn. apply rev_involutive.
Qed.

Lemma parsed_id_spec (entry : Element) (paper : ArxivPaper) :
  _parse_entry entry = Ok (Some paper) →
  ∃ id_text,
    _safe_get_text (find (atom "id") entry) = Some id_text
    ∧ arxiv_id paper = split_head "v" (split_last "/" id_text).
Proof.
  intros H. destruct (incomplete entry) eqn:Hi.
  { rewrite (parse_entry_incomplete entry Hi) in H. discriminate. }
  rewrite (parse_entry_complete entry Hi) in H.
  destruct (_parse_datetime (cast_str (published_text entry))); [|discriminate].
  inversion H; subst; clear H. cbn [arxiv_id ArxivPaper_init].
  unfold incomplete in Hi. repeat apply orb_false_iff in Hi as [Hi _].
  unfold missing_or_empty in Hi. apply negb_false_iff in Hi.
  destruct (_safe_get_text (find (atom "id") entry)) as [id_text|]; [|discriminate].
  exists id_text. split; reflexivity.
Qed.

(** on the identifiers the server sends, [<digits>.<digits>] with or
    without a version behind any path, the identifier of the record is
    the bare form *)
Lemma entry_arxiv_id_on_arxiv_ids (path d1 d2 d3 : string) :
  is_number d1 = true → is_number d2 = true → is_number d3 = true →
  entry_arxiv_id (path +:+ "/" +:+ bare d1 d2 +:+ "v" +:+ d3) = bare d1 d2
  ∧ entry_arxiv_id (path +:+ "/" +:+ bare d1 d2) = bare d1 d2.
Proof.
  intros H1 H2 H3.
  assert (contains "/" (bare d1 d2) = false) as Hbare.
  { unfold bare. rewrite !contains_app.
    rewrite (all_digits_no_letter "/" d1 eq_refl (proj2 (andb_prop _ _ H1))).
    rewrite (all_digits_no_letter "/" d2 eq_refl (proj2 (andb_prop _ _ H2))).
    reflexivity. }
  unfold entry_arxiv_id. split.
  - change ("/" +:+ bare d1 d2 +:+ "v" +:+ d3)
      with (String "/" (bare d1 d2 +:+ "v" +:+ d3)).
    rewrite split_last_app.
    + apply split_version; assumption.
    + rewrite !contains_app, Hbare.
      rewrite (all_digits_no_letter "/" d3 eq_refl (proj2 (andb_prop _ _ H3))).
      reflexivity.
  - change ("/" +:+ bare d1 d2) with (String "/" (bare d1 d2)).
    rewrite (split_last_app "/" path (bare d1 d2) Hbare).
    apply split_head_absent, bare_no_v; assumption.
Qed.

(** C9, as the claim states it, fails: the final path segment of this
    identifier has no [v<digits>] suffix, so the claim keeps it unchanged,
    and the record's identifier is the segment cut at its [v]. *)
Lemma entry_id_is_not_suffix_removal :
  _safe_get_text (find (atom "id") Samples.entry_odd_id)
    = Some "http://arxiv.org/abs/2301.00001vx"
  ∧ split_last "/" "http://arxiv.org/abs/2301.00001vx" = "2301.00001vx"
  ∧ remove_version_suffix "2301.00001vx" = "2301.00001vx"
  ∧ parsed_id Samples.entry_odd_id = Some "2301.00001".
Proof. repeat split; vm_compute; reflexivity. Qed.

(** C9, amended.  For every entry that yields a record, the record's
    identifier is the final [/]-separated segment of the identifier text
    cut at its first [v].  So a trailing [v<digits>] suffix is removed
    whenever the part before it holds no [v], and a final segment that
    holds no [v] is the identifier unchanged. *)
Theorem entry_id_is_segment_before_first_v (entry : Element) (paper : ArxivPaper) :
  _parse_entry entry = Ok (Some paper) →
  ∃ id_text,
    _safe_get_text (find (atom "id") entry) = Some id_text
    ∧ arxiv_id paper = split_head "v" (split_last "/" id_text)
    ∧ (∀ base d, split_last "/" id_text = base +:+ "v" +:+ d →
         contains "v" base = false → is_number d = true →
         arxiv_id paper = base
         ∧ arxiv_id paper = remove_version_suffix (split_last "/" id_text))
    ∧ (contains "v" (split_last "/" id_text) = false →
       arxiv_id paper = split_last "/" id_text).
Proof.
  intros H. destruct (parsed_id_spec entry paper H) as (id_text & Hid & Hcut).
  exists id_text. split; [exact Hid|]. split; [exact Hcut|]. split.
  - intros base d Hseg Hbase Hd. rewrite Hcut, Hseg.
    rewrite (remove_version_suffix_app base d Hd).
    change ("v" +:+ d) with (String "v" d).
    rewrite (split_head_app "v" base d Hbase). split; reflexivity.
  - intros Hnov. rewrite Hcut. apply split_head_absent, Hnov.
Qed.

Lemma entry_id_is_segment_before_first_v_witness :
  ∃ id_text,
    _safe_get_text (find (atom "id") Samples.entry_one) = Some id_text
    ∧ arxiv_id (ArxivPaper_init "2301.00001" "First paper"
                  ["Ada Lovelace"; "Alan Turing"] "An abstract."
                  ["cs.AI"; "cs.LG"] "2023-01-02" None None None None)
      = split_head "v" (split_last "/" id_text).
Proof.
  destruct (entry_id_is_segment_before_first_v Samples.entry_one
              (ArxivPaper_init "2301.00001" "First paper"
                 ["Ada Lovelace"; "Alan Turing"] "An abstract."
                 ["cs.AI"; "cs.LG"] "2023-01-02" None None None None)
              eq_refl) as (id_text & Hid & Hcut & _).
  exists id_text. split; [exact Hid | exact Hcut].
Defined.

(** *** The PDF link of a record *)

Lemma populate_pdf_url_spec (v : option string) (id : string) :
  nonempty id = true →
  _populate_pdf_url v (Some id)
  = (if truthy v then v else Some ("https://arxiv.org/pdf/" +:+ id)).
Proof.
  intros Hid. unfold _populate_pdf_url. cbn [truthy]. rewrite Hid. reflexivity.
Qed.

(** an empty link given by the caller counts as no link *)
Lemma pdf_url_empty_is_absent (id : string) :
  _populate_pdf_url (Some "") (Some id) = _populate_pdf_url None (Some id).
Proof. reflexivity. Qed.

(** with an empty identifier there is nothing to derive the link from *)
Lemma pdf_url_without_id : _populate_pdf_url None (Some "") = None.
Proof. reflexivity. Qed.

(** C8. For every record constructed with a non-empty identifier: when no
    link is given the record's link is [https://arxiv.org/pdf/] followed
    by the identifier; a link given by the caller (a non-empty string, as
    the validator tests it) is kept unchanged; the record always has a
    link; and every record the Atom parser yields with a non-empty
    identifier carries the derived link. *)
Theorem pdf_url_is_derived_from_id
    (id title : string) (authors : list string) (abstract : string)
    (categories : list string) (published : string) (comment : option string)
    (summary : option AISummary) (score : option spec_float)
    (given : option string) :
  nonempty id = true →
  let paper := ArxivPaper_init id title authors abstract categories published
                               comment summary score given in
  (given = None → pdf_url paper = Some ("https://arxiv.org/pdf/" +:+ id))
  ∧ (∀ url, given = Some url → nonempty url = true → pdf_url paper = Some url)
  ∧ pdf_url paper ≠ None
  ∧ (∀ entry parsed, _parse_entry entry = Ok (Some parsed) →
       nonempty (arxiv_id parsed) = true →
       pdf_url parsed = Some ("https://arxiv.org/pdf/" +:+ arxiv_id parsed)).
Proof.
  intros Hid paper. subst paper. cbn [pdf_url ArxivPaper_init].
  rewrite (populate_pdf_url_spec given id Hid). repeat split.
  - intros ->. reflexivity.
  - intros url -> Hurl. cbn [truthy]. rewrite Hurl. reflexivity.
  - destruct given as [url|]; cbn [truthy]; [|discriminate].
    destruct (nonempty url); discriminate.
  - intros entry parsed H Hne. destruct (incomplete entry) eqn:Hi.
    { rewrite (parse_entry_incomplete entry Hi) in H. discriminate. }
    rewrite (parse_entry_complete entry Hi) in H.
    destruct (_parse_datetime (cast_str (published_text entry))); [|discriminate].
    inversion H; subst; clear H. cbn [arxiv_id pdf_url ArxivPaper_init] in *.
    rewrite (populate_pdf_url_spec None _ Hne). reflexivity.
Qed.

Lemma pdf_url_is_derived_from_id_witness :
  pdf_url (ArxivPaper_init "2301.00001" "T" ["A"] "S" ["cs.AI"] "2023-01-02"
                           None None None None)
  = Some "https://arxiv.org/pdf/2301.00001".
Proof.
  destruct (pdf_url_is_derived_from_id "2301.00001" "T" ["A"] "S" ["cs.AI"]
              "2023-01-02" None None None None eq_refl) as (Hnone & _).
  exact (Hnone eq_refl).
Defined.

Example pdf_url_given_is_kept :
  pdf_url (ArxivPaper_init "2301.00001" "T" ["A"] "S" ["cs.AI"] "2023-01-02"
                           None None None (Some "https://example.org/p.pdf"))
  = Some "https://example.org/p.pdf".
Proof. reflexivity. Qed.

End ParserFacts.

(** ** Facts about the search operations *)

Section SearchFacts.
Import Py Models Parser Orchestration Words.

Variable fromstring : string → option Xml.Element.
Variable transport : Request → result string.
Variable decode_papers : string → result (list ArxivPaper).

(** *** The keyword query *)

(** the date-range step never raises: its handler is never entered *)
Lemma format_dates_ok (start_date end_date : string) :
  format_dates start_date end_date
  = Ok (delete_all "-" start_date +:+ "0000", delete_all "-" end_date +:+ "2359").
Proof. reflexivity. Qed.

(** the list of clauses is built in the fixed order, one clause for each
    field that is there and not empty, then the date range *)
Lemma build_query_parts_spec
    (title author abstract category all_fields start_date end_date : option string) :
  build_query_parts title author abstract category all_fields start_date end_date
  = Ok (clauses_in_order title author abstract category all_fields
                         start_date end_date).
Proof.
  unfold build_query_parts, clauses_in_order, clause_of, range_clause.
  rewrite format_dates_ok.
  destruct (truthy title), (truthy author), (truthy abstract),
    (truthy category), (truthy all_fields),
    (truthy start_date && truthy end_date); reflexivity.
Qed.

Lemma clauses_empty_iff
    (title author abstract category all_fields start_date end_date : option string) :
  clauses_in_order title author abstract category all_fields start_date end_date = []
  ↔ no_search_field title author abstract category all_fields = true
    ∧ truthy start_date && truthy end_date = false.
Proof.
  unfold clauses_in_order, clause_of, range_clause, no_search_field.
  destruct (truthy title), (truthy author), (truthy abstract),
    (truthy category), (truthy all_fields),
    (truthy start_date && truthy end_date); cbn; split;
    first [ intros [? ?]; discriminate | discriminate | auto ].
Qed.

(** what [search_keyword] does once the client is there: it refuses an
    empty list of clauses, and hands the joined query to the client *)
Lemma search_keyword_unfold
    (client : ArxivClient) (page page_size : Z) (sort_by sort_order : string)
    (title author abstract category start_date end_date all_fields : option string) :
  search_keyword fromstring transport (Some client) page page_size
                 sort_by sort_order title author abstract category
                 start_date end_date all_fields
  = (if bool_decide (clauses_in_order title author abstract category all_fields
                                      start_date end_date = [])
     then raise missing_criteria
     else ArxivClient_search fromstring transport client
            (String.concat " AND "
               (clauses_in_order title author abstract category all_fields
                                 start_date end_date))
            page_size ((page - 1) * page_size) sort_by sort_order).
Proof. unfold search_keyword. rewrite build_query_parts_spec. reflexivity. Qed.

(** the pagination checks of the client come before the request *)
Lemma ArxivClient_search_cases
    (client : ArxivClient) (query : string) (max_results start : Z)
    (sort_by sort_order : string) (log : list Request) :
  ArxivClient_search fromstring transport client query max_results start
                     sort_by sort_order log
  = (if (15 <? max_results) || (max_results <? 1)
     then (Raise page_size_out_of_range, log)
     else if start <? 0
     then (Raise (ValueError "Start index must be greater than or equal to 0"), log)
     else
       let request :=
         GET (arxiv_base_url client)
             [ ("search_query", VStr query); ("start", VInt start);
               ("max_results", VInt max_results); ("sortBy", VStr sort_by);
               ("sortOrder", VStr sort_order) ] in
       (match transport request with
        | Ok body => _parse_response fromstring body
        | Raise e => Raise e
        end, log ++ [request])).
Proof.
  unfold ArxivClient_search.
  destruct ((15 <? max_results) || (max_results <? 1)); [reflexivity|].
  destruct (start <? 0); [reflexivity|].
  unfold bind, send, lift. cbv zeta.
  destruct (transport _); reflexivity.
Qed.

(** the missing-criteria error is raised exactly when every search field
    is empty or absent and the date range is not given in full *)
Lemma search_keyword_missing_criteria
    (client : ArxivClient) (page page_size : Z) (sort_by sort_order : string)
    (title author abstract category start_date end_date all_fields : option string)
    (log : list Request) :
  no_search_field title author abstract category all_fields = true →
  truthy start_date && truthy end_date = false →
  search_keyword fromstring transport (Some client) page page_size
                 sort_by sort_order title author abstract category
                 start_date end_date all_fields log
  = (Raise missing_criteria, log).
Proof.
  intros Hnone Hdates. rewrite search_keyword_unfold.
  rewrite bool_decide_eq_true_2; [reflexivity|].
  apply clauses_empty_iff. split; assumption.
Qed.

Example query_category_only :
  String.concat " AND "
    (clauses_in_order None None None (Some "cs.AI") None None None)
  = "cat:cs.AI".
Proof. reflexivity. Qed.

Example query_title_and_range :
  String.concat " AND "
    (clauses_in_order (Some "a") None None None None
                      (Some "2023-01-01") (Some "2023-01-31"))
  = "ti:" +:+ dquote +:+ "a" +:+ dquote
    +:+ " AND submittedDate:[202301010000 TO 202301312359]".
Proof. reflexivity. Qed.

Example query_all_five :
  clauses_in_order (Some "t") (Some "u") (Some "b") (Some "c") (Some "f") None None
  = [ quoted_clause "ti" "t"; quoted_clause "au" "u"; quoted_clause "abs" "b";
      plain_clause "cat" "c"; plain_clause "all" "f" ].
Proof. reflexivity. Qed.

(** C6, at a search with dates only.  Every search field is absent and
    both dates are given: the list of clauses holds the date-range clause,
    so it is not empty, no error is raised for the missing criteria, and
    the request goes out with the date range as the whole query. *)
Theorem search_keyword_dates_only_is_sent :
  no_search_field None None None None None = true
  ∧ search_keyword fromstring transport (Some ArxivClient_init) 1 10
      "submittedDate" "descending" None None None None
      (Some "2023-01-01") (Some "2023-01-31") None []
    = (match transport
               (keyword_request ArxivClient_init
                  "submittedDate:[202301010000 TO 202301312359]" 1 10
                  "submittedDate" "descending") with
       | Ok body => _parse_response fromstring body
       | Raise e => Raise e
       end,
       [keyword_request ArxivClient_init
          "submittedDate:[202301010000 TO 202301312359]" 1 10
          "submittedDate" "descending"]).
Proof.
  split; [reflexivity|].
  rewrite search_keyword_unfold.
  rewrite bool_decide_eq_false_2 by (vm_compute; discriminate).
  rewrite ArxivClient_search_cases. reflexivity.
Qed.

(** C4, at a malformed start date.  Both dates are given and the start
    date is not of the form YYYY-MM-DD: no error is raised, and the
    request goes out with a date-range clause built from the malformed
    text. *)
Theorem search_keyword_malformed_date_is_sent :
  is_ymd "yesterday" = false
  ∧ search_keyword fromstring transport (Some ArxivClient_init) 1 10
      "submittedDate" "descending" (Some "a") None None None
      (Some "yesterday") (Some "2023-01-31") None []
    = (match transport
               (keyword_request ArxivClient_init
                  ("ti:" +:+ dquote +:+ "a" +:+ dquote
                   +:+ " AND submittedDate:[yesterday0000 TO 202301312359]")
                  1 10 "submittedDate" "descending") with
       | Ok body => _parse_response fromstring body
       | Raise e => Raise e
       end,
       [keyword_request ArxivClient_init
          ("ti:" +:+ dquote +:+ "a" +:+ dquote
           +:+ " AND submittedDate:[yesterday0000 TO 202301312359]")
          1 10 "submittedDate" "descending"]).
Proof.
  split; [reflexivity|].
  rewrite search_keyword_unfold.
  rewrite bool_decide_eq_false_2 by (vm_compute; discriminate).
  rewrite ArxivClient_search_cases. reflexivity.
Qed.

(** whatever the two dates are, building the clauses never raises *)
Lemma build_query_parts_never_raises
    (title author abstract category all_fields start_date end_date : option string)
    (e : exn) :
  build_query_parts title author abstract category all_fields start_date end_date
  ≠ Raise e.
Proof. rewrite build_query_parts_spec. discriminate. Qed.

(** C10, at a search with dates only and a page size of 0.  Every search
    field is absent and the page size is out of range, yet the error is
    the one about the page size: the date-range clause keeps the list of
    clauses from being empty, so the check of the criteria passes. *)
Theorem search_keyword_dates_only_page_size_error :
  no_search_field None None None None None = true
  ∧ ¬ page_size_in_range 0
  ∧ search_keyword fromstring transport (Some ArxivClient_init) 1 0
      "submittedDate" "descending" None None None None
      (Some "2023-01-01") (Some "2023-01-31") None []
    = (Raise page_size_out_of_range, []).
Proof.
  split; [reflexivity|]. split; [unfold page_size_in_range; lia|].
  rewrite search_keyword_unfold.
  rewrite bool_decide_eq_false_2 by (vm_compute; discriminate).
  rewrite ArxivClient_search_cases. reflexivity.
Qed.

(** *** Validation before the request *)

(** a tool called before [startup] raises a [RuntimeError] and issues
    nothing *)
Lemma tools_need_their_client
    (page page_size : Z) (sort_by sort_order query : string)
    (title author abstract category start_date end_date all_fields : option string)
    (use_rewrite : bool) (categories : option (list string))
    (start_time end_time : option string) (log : list Request) :
  search_keyword fromstring transport None page page_size sort_by sort_order
                 title author abstract category start_date end_date all_fields log
  = (Raise (RuntimeError "ArxivClient not initialized"), log)
  ∧ search_semantic transport decode_papers None query page page_size
                    use_rewrite categories start_time end_time log
    = (Raise (RuntimeError "SemanticSearchClient not initialized"), log).
Proof. split; reflexivity. Qed.

Lemma search_keyword_page_size
    (client : ArxivClient) (page page_size : Z) (sort_by sort_order : string)
    (title author abstract category start_date end_date all_fields : option string)
    (log : list Request) :
  ¬ page_size_in_range page_size →
  ∃ msg,
    search_keyword fromstring transport (Some client) page page_size
                   sort_by sort_order title author abstract category
                   start_date end_date all_fields log
    = (Raise (ValueError msg), log).
Proof.
  intros Hsize. rewrite search_keyword_unfold.
  destruct (bool_decide _); [eexists; reflexivity|].
  rewrite ArxivClient_search_cases.
  assert ((15 <? page_size) || (page_size <? 1) = true) as ->.
  { unfold page_size_in_range in Hsize. apply orb_true_iff.
    destruct (Z.ltb_spec 15 page_size); [left; reflexivity|].
    right. apply Z.ltb_lt. lia. }
  eexists. reflexivity.
Qed.

Lemma search_keyword_negative_start
    (client : ArxivClient) (page page_size : Z) (sort_by sort_order : string)
    (title author abstract category start_date end_date all_fields : option string)
    (log : list Request) :
  (page - 1) * page_size < 0 →
  ∃ msg,
    search_keyword fromstring transport (Some client) page page_size
                   sort_by sort_order title author abstract category
                   start_date end_date all_fields log
    = (Raise (ValueError msg), log).
Proof.
  intros Hstart. rewrite search_keyword_unfold.
  destruct (bool_decide _); [eexists; reflexivity|].
  rewrite ArxivClient_search_cases.
  destruct ((15 <? page_size) || (page_size <? 1)); [eexists; reflexivity|].
  apply Z.ltb_lt in Hstart. rewrite Hstart. eexists. reflexivity.
Qed.

Lemma search_keyword_sends
    (client : ArxivClient) (page page_size : Z) (sort_by sort_order : string)
    (title author abstract category start_date end_date all_fields : option string)
    (log : list Request) :
  page_size_in_range page_size → 1 <= page →
  clauses_in_order title author abstract category all_fields start_date end_date
    ≠ [] →
  (search_keyword fromstring transport (Some client) page page_size
                  sort_by sort_order title author abstract category
                  start_date end_date all_fields log).2
  = log ++ [keyword_request client
              (String.concat " AND "
                 (clauses_in_order title author abstract category all_fields
                                   start_date end_date))
              page page_size sort_by sort_order].
Proof.
  intros [Hlo Hhi] Hpage Hclauses. rewrite search_keyword_unfold.
  rewrite bool_decide_eq_false_2 by exact Hclauses.
  rewrite ArxivClient_search_cases.
  assert ((15 <? page_size) || (page_size <? 1) = false) as ->.
  { apply orb_false_iff. split; apply Z.ltb_ge; lia. }
  assert (((page - 1) * page_size <? 0) = false) as -> by (apply Z.ltb_ge; nia).
  reflexivity.
Qed.

Lemma semantic_search_unfold
    (client : SemanticSearchClient) (query : string) (page page_size : Z)
    (use_rewrite : bool) (categories : option (list string))
    (start_time end_time : option string) (log : list Request) :
  search_semantic transport decode_papers (Some client) query page page_size
                  use_rewrite categories start_time end_time log
  = (if negb (nonempty (strip query))
     then (Raise (ValueError "Query content cannot be empty"), log)
     else if page <? 1
     then (Raise (ValueError "Page number must be greater than or equal to 1"), log)
     else if (page_size <? 1) || (15 <? page_size)
     then (Raise page_size_out_of_range, log)
     else if times_out_of_order start_time end_time
     then (Raise (ValueError "Start date cannot be later than end date"), log)
     else
       let request := semantic_request client query page page_size use_rewrite
                                       categories start_time end_time in
       (match transport request with
        | Ok body => decode_papers body
        | Raise e => Raise e
        end, log ++ [request])).
Proof.
  unfold search_semantic, SemanticSearchClient_search, times_out_of_order.
  destruct (negb (nonempty (strip query))); [reflexivity|].
  destruct (page <? 1); [reflexivity|].
  destruct ((page_size <? 1) || (15 <? page_size)); [reflexivity|].
  destruct (truthy start_time && truthy end_time
            && str_gt (cast_str start_time) (cast_str end_time)); [reflexivity|].
  unfold bind, send, lift, semantic_request, drop_none. cbv zeta.
  destruct categories, start_time, end_time; cbn;
    destruct (transport _); reflexivity.
Qed.

Lemma search_semantic_page_size
    (client : SemanticSearchClient) (query : string) (page page_size : Z)
    (use_rewrite : bool) (categories : option (list string))
    (start_time end_time : option string) (log : list Request) :
  ¬ page_size_in_range page_size →
  ∃ msg,
    search_semantic transport decode_papers (Some client) query page page_size
                    use_rewrite categories start_time end_time log
    = (Raise (ValueError msg), log).
Proof.
  intros Hsize. rewrite semantic_search_unfold.
  destruct (negb (nonempty (strip query))); [eexists; reflexivity|].
  destruct (page <? 1); [eexists; reflexivity|].
  assert ((page_size <? 1) || (15 <? page_size) = true) as ->.
  { unfold page_size_in_range in Hsize. apply orb_true_iff.
    destruct (Z.ltb_spec page_size 1); [left; reflexivity|].
    right. apply Z.ltb_lt. lia. }
  eexists. reflexivity.
Qed.

Lemma search_semantic_bad_input
    (client : SemanticSearchClient) (query : string) (page page_size : Z)
    (use_rewrite : bool) (categories : option (list string))
    (start_time end_time : option string) (log : list Request) :
  nonempty (strip query) = false ∨ page < 1
  ∨ times_out_of_order start_time end_time = true →
  ∃ msg,
    search_semantic transport decode_papers (Some client) query page page_size
                    use_rewrite categories start_time end_time log
    = (Raise (ValueError msg), log).
Proof.
  intros H. rewrite semantic_search_unfold.
  destruct (negb (nonempty (strip query))) eqn:Hq; [eexists; reflexivity|].
  destruct (page <? 1) eqn:Hp; [eexists; reflexivity|].
  destruct ((page_size <? 1) || (15 <? page_size)); [eexists; reflexivity|].
  destruct H as [H | [H | H]].
  - rewrite H in Hq. discriminate.
  - apply Z.ltb_lt in H. congruence.
  - rewrite H. eexists. reflexivity.
Qed.

Lemma search_semantic_sends
    (client : SemanticSearchClient) (query : string) (page page_size : Z)
    (use_rewrite : bool) (categories : option (list string))
    (start_time end_time : option string) (log : list Request) :
  page_size_in_range page_size → 1 <= page →
  nonempty (strip query) = true →
  times_out_of_order start_time end_time = false →
  (search_semantic transport decode_papers (Some client) query page page_size
                   use_rewrite categories start_time end_time log).2
  = log ++ [semantic_request client query page page_size use_rewrite
                             categories start_time end_time].
Proof.
  intros [Hlo Hhi] Hpage Hq Ht. rewrite semantic_search_unfold.
  rewrite Hq, Ht. cbn [negb].
  assert ((page <? 1) = false) as -> by (apply Z.ltb_ge; lia).
  assert ((page_size <? 1) || (15 <? page_size) = false) as ->.
  { apply orb_false_iff. split; apply Z.ltb_ge; lia. }
  reflexivity.
Qed.

Example empty_query_is_blank : nonempty (strip "") = false.
Proof. reflexivity. Qed.

Example times_compare_as_text :
  times_out_of_order (Some "2023-02-01") (Some "2023-01-31") = true
  ∧ times_out_of_order (Some "2023-01-31") (Some "2023-02-01") = false
  ∧ times_out_of_order (Some "2023-01-31") None = false.
Proof. repeat split; reflexivity. Qed.

(** C7. With their clients in place, both search operations check their
    input before any request is issued (the list of requests is returned
    as it was).  A page size outside 1..15 makes either operation raise a
    [ValueError]; the keyword operation also raises one when the start
    index [(page - 1) * page_size] is negative; the semantic operation also
    raises one for an empty query (or one of white space only), for a page
    below 1, and when both times are given and the start is after the end
    as text.  A page size of 15 passes: with the rest of the input in order
    each operation issues its request. *)
Theorem searches_validate_before_request
    (keyword_client : ArxivClient) (semantic_client : SemanticSearchClient)
    (log : list Request) (page page_size : Z) (sort_by sort_order : string)
    (title author abstract category start_date end_date all_fields : option string)
    (query : string) (use_rewrite : bool) (categories : option (list string))
    (start_time end_time : option string) :
  let keyword :=
    search_keyword fromstring transport (Some keyword_client) page page_size
                   sort_by sort_order title author abstract category
                   start_date end_date all_fields in
  let semantic :=
    search_semantic transport decode_papers (Some semantic_client) query
                    page page_size use_rewrite categories start_time end_time in
  (¬ page_size_in_range page_size →
     (∃ msg, keyword log = (Raise (ValueError msg), log))
     ∧ (∃ msg, semantic log = (Raise (ValueError msg), log)))
  ∧ ((page - 1) * page_size < 0 →
     ∃ msg, keyword log = (Raise (ValueError msg), log))
  ∧ (nonempty (strip query) = false ∨ page < 1
     ∨ times_out_of_order start_time end_time = true →
     ∃ msg, semantic log = (Raise (ValueError msg), log))
  ∧ (page_size = 15 → 1 <= page →
     (clauses_in_order title author abstract category all_fields
                       start_date end_date ≠ [] →
      (keyword log).2
      = log ++ [keyword_request keyword_client
                  (String.concat " AND "
                     (clauses_in_order title author abstract category all_fields
                                       start_date end_date))
                  page 15 sort_by sort_order])
     ∧ (nonempty (strip query) = true →
        times_out_of_order start_time end_time = false →
        (semantic log).2
        = log ++ [semantic_request semantic_client query page 15 use_rewrite
                                   categories start_time end_time])).
Proof.
  intros keyword semantic. subst keyword semantic. repeat split.
  - apply search_keyword_page_size. assumption.
  - apply search_semantic_page_size. assumption.
  - apply search_keyword_negative_start.
  - apply search_semantic_bad_input.
  - intros Hclauses. subst page_size.
    apply search_keyword_sends; [unfold page_size_in_range; lia | assumption..].
  - intros Hq Ht. subst page_size.
    apply search_semantic_sends; [unfold page_size_in_range; lia | assumption..].
Qed.

End SearchFacts.

Lemma searches_validate_before_request_witness :
  ((∃ msg,
      Orchestration.search_keyword (λ _, None) (λ _, Raise HTTPError)
        (Some Orchestration.ArxivClient_init) 1 16 "submittedDate" "descending"
        (Some "graphs") None None None None None None []
      = (Raise (ValueError msg), []))
   ∧ (∃ msg,
        Orchestration.search_semantic (λ _, Raise HTTPError) (λ _, Ok [])
          (Some Orchestration.SemanticSearchClient_init) "graph neural networks"
          1 16 false None None None []
        = (Raise (ValueError msg), [])))
  ∧ (Orchestration.search_semantic (λ _, Raise HTTPError) (λ _, Ok [])
       (Some Orchestration.SemanticSearchClient_init) "graph neural networks"
       2 15 false None (Some "2023-01-01") None []).2
    = [Words.semantic_request Orchestration.SemanticSearchClient_init
         "graph neural networks" 2 15 false None (Some "2023-01-01") None].
Proof.
  split.
  - destruct (searches_validate_before_request
                (λ _, None) (λ _, Raise HTTPError) (λ _, Ok [])
                Orchestration.ArxivClient_init
                Orchestration.SemanticSearchClient_init []
                1 16 "submittedDate" "descending"
                (Some "graphs") None None None None None None
                "graph neural networks" false None None None) as (Hsize & _).
    apply Hsize. unfold Words.page_size_in_range. lia.
  - destruct (searches_validate_before_request
                (λ _, None) (λ _, Raise HTTPError) (λ _, Ok [])
                Orchestration.ArxivClient_init
                Orchestration.SemanticSearchClient_init []
                2 15 "submittedDate" "descending"
                (Some "graphs") None None None None None None
                "graph neural networks" false None (Some "2023-01-01") None)
      as (_ & _ & _ & Hpass).
    destruct (Hpass eq_refl ltac:(lia)) as [_ Hsemantic].
    apply Hsemantic; reflexivity.
Defined.

Example page_size_fifteen_is_sent :
  (Orchestration.search_keyword (λ _, None) (λ _, Raise HTTPError)
     (Some Orchestration.ArxivClient_init) 1 15 "submittedDate" "descending"
     None None None (Some "cs.AI") None None None []).2
  = [Words.keyword_request Orchestration.ArxivClient_init "cat:cs.AI" 1 15
       "submittedDate" "descending"].
Proof. reflexivity. Qed.

Example page_size_zero_is_refused :
  Orchestration.search_semantic (λ _, Raise HTTPError) (λ _, Ok [])
    (Some Orchestration.SemanticSearchClient_init) "graphs" 1 0 false None None None []
  = (Raise Words.page_size_out_of_range, []).
Proof. reflexivity. Qed.

(** ** More about the identifier normalizer and the single-paper lookup *)

Section NormalizerMore.
Import Py Normalizer Words Orchestration.

Lemma span_digits_head (x : string) :
  head_not_digit x = true → span_digits x = (EmptyString, x).
Proof.
  destruct x as [|a r]; [reflexivity|]. cbn [head_not_digit span_digits].
  intros Ha%negb_true_iff. rewrite Ha. reflexivity.
Qed.

Lemma match_versioned_head (x : string) :
  head_not_digit x = true → match_versioned x = false.
Proof.
  intros Hx. unfold match_versioned, match_number.
  rewrite (span_digits_head x Hx). reflexivity.
Qed.

Lemma eat_startswith (p s : string) :
  startswith s p = false → eat p s = None.
Proof.
  revert s. induction p as [|b p IH]; intros s; [discriminate|].
  destruct s as [|a s]; [reflexivity|]. cbn [startswith eat].
  destruct (Ascii.eqb a b); [apply IH | reflexivity].
Qed.

Lemma search_url_absent (s : string) :
  occurs "arxiv.org/" s = false → search_url s = None.
Proof.
  induction s as [|a s IH]; cbn [occurs].
  - intros _. reflexivity.
  - intros [Hhere Hrest]%orb_false_iff. cbn [search_url].
    unfold match_url_here at 1. rewrite (eat_startswith _ _ Hhere).
    apply IH, Hrest.
Qed.

Lemma url_head (x : string) :
  startswith x "http://" || startswith x "https://" = true →
  head_not_digit x = true.
Proof.
  destruct x as [|a r]; [reflexivity|]. cbn [startswith head_not_digit].
  destruct (Ascii.eqb_spec a "h") as [->|Hne]; [reflexivity|discriminate].
Qed.

(** X1. Whatever the input, the normalizer returns either the input as
    it is or a canonical identifier [<digits>.<digits>]: it never returns
    a third thing, such as a part of a URL or a mangled text. *)
Theorem normalize_returns_input_or_canonical (x : string) :
  normalize_arxiv_id x = x
  ∨ ∃ d1 d2, is_number d1 = true ∧ is_number d2 = true
             ∧ normalize_arxiv_id x = bare d1 d2.
Proof. exact (normalize_canonical x). Qed.

(** X2. An input that is not a URL and does not begin with a digit is
    returned unchanged: an old-style identifier such as
    [hep-th/9901001v1] keeps its archive and its version. *)
Theorem normalize_keeps_text_without_leading_digit (x : string) :
  head_not_digit x = true →
  startswith x "http://" || startswith x "https://" = false →
  normalize_arxiv_id x = x.
Proof.
  intros Hhead Hurl. apply normalize_no_pattern.
  - unfold url_matched. rewrite Hurl. reflexivity.
  - apply match_versioned_head, Hhead.
Qed.

Lemma normalize_keeps_text_without_leading_digit_witness :
  normalize_arxiv_id "hep-th/9901001v1" = "hep-th/9901001v1".
Proof.
  apply normalize_keeps_text_without_leading_digit; reflexivity.
Defined.

(** X3. A URL in which the text [arxiv.org/] does not occur is returned
    unchanged, whatever identifier it holds. *)
Theorem normalize_keeps_foreign_url (x : string) :
  startswith x "http://" || startswith x "https://" = true →
  occurs "arxiv.org/" x = false →
  normalize_arxiv_id x = x.
Proof.
  intros Hurl Hocc. apply normalize_no_pattern.
  - unfold url_matched. rewrite (search_url_absent x Hocc).
    rewrite bool_decide_eq_false_2 by (intros [g Hg]; discriminate).
    apply andb_false_r.
  - apply match_versioned_head, url_head, Hurl.
Qed.

Lemma normalize_keeps_foreign_url_witness :
  normalize_arxiv_id "https://example.org/abs/2201.00001v1"
  = "https://example.org/abs/2201.00001v1".
Proof. apply normalize_keeps_foreign_url; reflexivity. Defined.

(** X4. The strict versioned pattern ends in [$], which also matches just
    before a final line feed: a versioned identifier followed by one line
    feed loses its version and the line feed, while a bare identifier
    followed by a line feed is returned with it. *)
Theorem normalize_final_line_feed (d1 d2 d3 : string) :
  is_number d1 = true → is_number d2 = true → is_number d3 = true →
  normalize_arxiv_id (bare d1 d2 +:+ "v" +:+ d3 +:+ String "010" "") = bare d1 d2
  ∧ normalize_arxiv_id (bare d1 d2 +:+ String "010" "")
    = bare d1 d2 +:+ String "010" "".
Proof.
  intros H1 H2 H3. unfold normalize_arxiv_id, extract_from_url. split.
  - assert (startswith (bare d1 d2 +:+ "v" +:+ d3 +:+ String "010" "") "http://"
            || startswith (bare d1 d2 +:+ "v" +:+ d3 +:+ String "010" "") "https://"
            = false) as ->.
    { unfold bare. rewrite !app_assoc_str. apply digit_head_not_url, H1. }
    unfold strip_version_suffix.
    assert (match_versioned (bare d1 d2 +:+ "v" +:+ d3 +:+ String "010" "") = true)
      as ->.
    { unfold match_versioned, bare. rewrite !app_assoc_str.
      rewrite (match_number_app d1 d2 ("v" +:+ d3 +:+ String "010" "") H1 H2 eq_refl).
      change ("v" +:+ d3 +:+ String "010" "") with (String "v" (d3 +:+ String "010" "")).
      apply is_number_inv in H3 as (Hd3 & Hn3 & _). cbv iota beta.
      rewrite (span_digits_app d3 (String "010" "") Hd3 eq_refl), Hn3. reflexivity. }
    rewrite contains_app. change (contains "v" ("v" +:+ d3 +:+ String "010" "")) with true.
    rewrite orb_true_r. cbn [andb]. apply split_version; assumption.
  - assert (startswith (bare d1 d2 +:+ String "010" "") "http://"
            || startswith (bare d1 d2 +:+ String "010" "") "https://" = false) as ->.
    { unfold bare. rewrite !app_assoc_str. apply digit_head_not_url, H1. }
    unfold strip_version_suffix.
    rewrite contains_app, (bare_no_v d1 d2 H1 H2). reflexivity.
Qed.

Lemma normalize_final_line_feed_witness :
  normalize_arxiv_id ("2201.00001v3" +:+ String "010" "") = "2201.00001".
Proof.
  apply (normalize_final_line_feed "2201" "00001" "3" eq_refl eq_refl eq_refl).
Defined.

End NormalizerMore.

Section LookupFacts.
Import Py Models Xml Parser Normalizer Words Orchestration.

Variable fromstring : string → option Element.
Variable transport : Request → result string.

Lemma get_details_unfold (client : ArxivClient) (x : string) (log : list Request) :
  Server.get_details fromstring transport (Some client) x log
  = (match transport (details_request client x) with
     | Raise e => Raise e
     | Ok body =>
         match _parse_response fromstring body with
         | Raise e => Raise e
         | Ok papers => Ok (head papers)
         end
     end, log ++ [details_request client x]).
Proof.
  unfold Server.get_details, Server.ArxivClient_get_details, details_request.
  unfold bind, send, lift, ret. cbv zeta.
  destruct (transport _) as [body|e]; [|reflexivity].
  destruct (_parse_response fromstring body); reflexivity.
Qed.

(** X5. The single-paper lookup checks nothing before it sends: for
    every text, the empty one too, it issues exactly one GET whose only
    parameter is [id_list], the normalized text.  So every accepted
    spelling of an identifier leads to the same request and the same
    outcome as its bare form. *)
Theorem get_details_sends_normalized_id
    (client : ArxivClient) (x : string) (log : list Request) :
  (Server.get_details fromstring transport (Some client) x log).2
  = log ++ [GET (arxiv_base_url client)
                [("id_list", VStr (normalize_arxiv_id x))]]
  ∧ (∀ d1 d2 d3,
       is_number d1 = true → is_number d2 = true → is_number d3 = true →
       accepted_spelling d1 d2 d3 x →
       Server.get_details fromstring transport (Some client) x log
       = Server.get_details fromstring transport (Some client) (bare d1 d2) log).
Proof.
  split.
  - rewrite get_details_unfold. reflexivity.
  - intros d1 d2 d3 H1 H2 H3 Hx. rewrite !get_details_unfold.
    unfold details_request.
    rewrite (normalize_accepted d1 d2 d3 x H1 H2 H3 Hx).
    rewrite (normalize_bare_fixed d1 d2 H1 H2). reflexivity.
Qed.

Lemma parse_entries_none (entries : list Element) :
  forallb (λ e, negb (yields_record e)) entries = true →
  parse_entries entries = [].
Proof.
  induction entries as [|e l IH]; [reflexivity|].
  cbn [forallb parse_entries]. intros [He Hl]%andb_true_iff.
  unfold yields_record in He.
  destruct (_parse_entry e) as [[p|]|err]; [discriminate| |]; apply IH, Hl.
Qed.

(** X6. The lookup returns the record of the first entry of the answer
    that yields one, passing over the entries before it that yield none;
    when no entry yields a record it returns [None].  The identifier of
    the record is not compared with the one asked for. *)
Theorem get_details_first_record
    (client : ArxivClient) (x body : string) (root : Element)
    (log : list Request) :
  transport (details_request client x) = Ok body →
  fromstring body = Some root → total_results_ok root = true →
  (∀ before entry after paper,
     entries_of root = before ++ entry :: after →
     forallb (λ e, negb (yields_record e)) before = true →
     _parse_entry entry = Ok (Some paper) →
     Server.get_details fromstring transport (Some client) x log
     = (Ok (Some paper), log ++ [details_request client x]))
  ∧ (forallb (λ e, negb (yields_record e)) (entries_of root) = true →
     Server.get_details fromstring transport (Some client) x log
     = (Ok None, log ++ [details_request client x])).
Proof.
  intros Hbody Hroot Htotal. split.
  - intros before entry after paper Hsplit Hbefore Hentry.
    rewrite get_details_unfold, Hbody.
    rewrite (parse_response_ok fromstring body root Hroot Htotal), Hsplit.
    rewrite parse_entries_app, (parse_entries_none before Hbefore).
    cbn [parse_entries app]. rewrite Hentry. reflexivity.
  - intros Hnone. rewrite get_details_unfold, Hbody.
    rewrite (parse_response_ok fromstring body root Hroot Htotal).
    rewrite (parse_entries_none _ Hnone). reflexivity.
Qed.

End LookupFacts.

Lemma get_details_sends_normalized_id_witness :
  Server.get_details (λ _, None) (λ _, Raise HTTPError)
    (Some Orchestration.ArxivClient_init)
    "https://arxiv.org/abs/2201.00001v2" []
  = Server.get_details (λ _, None) (λ _, Raise HTTPError)
      (Some Orchestration.ArxivClient_init) "2201.00001" [].
Proof.
  destruct (get_details_sends_normalized_id (λ _, None) (λ _, Raise HTTPError)
              Orchestration.ArxivClient_init
              "https://arxiv.org/abs/2201.00001v2" []) as [_ Hsame].
  apply (Hsame "2201" "00001" "2" eq_refl eq_refl eq_refl).
  apply (Words.spelled_url "2201" "00001" "2" "https://" "arxiv.org/" "abs/" "v2" "");
    simpl; auto.
Defined.

Lemma get_details_first_record_witness :
  Server.get_details (λ _, Some Samples.feed_of_three) (λ _, Ok "")
    (Some Orchestration.ArxivClient_init) "2301.00003" []
  = (Ok (Some (Models.ArxivPaper_init "2301.00001" "First paper"
                 ["Ada Lovelace"; "Alan Turing"] "An abstract."
                 ["cs.AI"; "cs.LG"] "2023-01-02" None None None None)),
     [Words.details_request Orchestration.ArxivClient_init "2301.00003"]).
Proof.
  destruct (get_details_first_record (λ _, Some Samples.feed_of_three) (λ _, Ok "")
              Orchestration.ArxivClient_init "2301.00003" ""
              Samples.feed_of_three [] eq_refl eq_refl eq_refl) as [Hfirst _].
  apply (Hfirst [] Samples.entry_one
                [Samples.entry_without_authors; Samples.entry_three]);
    reflexivity.
Defined.

(** ** More about the category taxonomy *)

Section TaxonomyMore.
Import Py Taxonomy Words.

Lemma nonempty_lower (f : string) : nonempty (lower f) = nonempty f.
Proof. destruct f; reflexivity. Qed.

Lemma known_major (m : string) :
  bool_decide (m ∈ major_categories) = true → m ∈ ARXIV_MAJOR_CATEGORIES.
Proof. intros H%bool_decide_eq_true. apply major_categories_spec, H. Qed.

Lemma unknown_major (m : string) :
  bool_decide (m ∈ major_categories) = false → m ∉ ARXIV_MAJOR_CATEGORIES.
Proof.
  intros H%bool_decide_eq_false Hm. apply H, major_categories_spec, Hm.
Qed.

(** X7. Whatever the filter, the mapping returned is a part of the fixed
    table: every code it holds is a code of the table, with the
    description the table gives it. *)
Theorem get_categories_within_table (major_category : option string) :
  get_categories major_category ⊆ ARXIV_CATEGORIES.
Proof.
  unfold get_categories. destruct (truthy major_category); [|reflexivity].
  cbv zeta. destruct (decide _).
  - apply map_empty_subseteq.
  - apply map_filter_subseteq.
Qed.

Lemma get_categories_lower (f : string) :
  get_categories (Some f) = get_categories (Some (lower f)).
Proof.
  unfold get_categories, truthy, cast_str. simpl default.
  rewrite nonempty_lower, lower_idem. reflexivity.
Qed.

(** X8. The filter is blind to the case of its letters: a filter and its
    lower-case form give the same mapping. *)
Theorem get_categories_ignores_case (f : string) :
  get_categories (Some f) = get_categories (Some (lower f)).
Proof. exact (get_categories_lower f). Qed.

Lemma own_major_check :
  forallb (λ item : string * string,
             bool_decide (get_categories (Some (major_of item.1)) !! item.1
                          = Some item.2))
          ARXIV_CATEGORIES_items = true.
Proof. vm_compute. reflexivity. Qed.

(** X9. Every entry of the table is found under its own major category:
    filtering by what precedes the first dot of a code returns that code
    with its description. *)
Theorem get_categories_own_major (code desc : string) :
  ARXIV_CATEGORIES !! code = Some desc →
  get_categories (Some (major_of code)) !! code = Some desc.
Proof.
  intros Ht. apply table_lookup_item, list_elem_of_In in Ht.
  pose proof own_major_check as Hall. rewrite forallb_forall in Hall.
  specialize (Hall _ Ht). apply bool_decide_eq_true in Hall. exact Hall.
Qed.

Lemma get_categories_own_major_witness :
  get_categories (Some "physics") !! "physics.optics" = Some "Optics".
Proof.
  apply (get_categories_own_major "physics.optics" "Optics").
  vm_compute. reflexivity.
Defined.

Lemma known_majors_not_empty :
  forallb (λ m, negb (size (get_categories (Some m)) =? 0)%nat)
          major_categories = true.
Proof. vm_compute. reflexivity. Qed.

(** X10. For a non-empty filter the empty mapping is returned exactly
    when the filter, in lower case, is not a major category of the table:
    a known major category always has entries. *)
Theorem get_categories_empty_iff_unknown (f : string) :
  nonempty f = true →
  get_categories (Some f) = ∅ ↔ lower f ∉ ARXIV_MAJOR_CATEGORIES.
Proof.
  intros Hf. split.
  - intros Hempty Hknown.
    rewrite get_categories_lower in Hempty.
    pose proof known_majors_not_empty as Hall. rewrite forallb_forall in Hall.
    apply major_categories_spec, list_elem_of_In in Hknown.
    specialize (Hall _ Hknown). rewrite Hempty in Hall. discriminate.
  - apply get_categories_unknown, Hf.
Qed.

Lemma get_categories_empty_iff_unknown_witness :
  get_categories (Some "biology") = ∅.
Proof.
  apply (get_categories_empty_iff_unknown "biology" eq_refl).
  apply unknown_major. vm_compute. reflexivity.
Defined.

(** X11. For every known major category other than [math] the mapping
    returned holds exactly the entries of the table whose code starts with
    the filter followed by a dot, without regard to case, or is the bare
    major code. *)
Theorem get_categories_exact_selection (f code desc : string) :
  nonempty f = true → lower f ∈ ARXIV_MAJOR_CATEGORIES → lower f ≠ "math" →
  get_categories (Some f) !! code = Some desc
  ↔ ARXIV_CATEGORIES !! code = Some desc ∧ selected_by f code = true.
Proof. exact (get_categories_exact_but_math f code desc). Qed.

Lemma get_categories_exact_selection_witness :
  get_categories (Some "Hep-Th") !! "hep-th"
  = Some "High Energy Physics - Theory".
Proof.
  apply (get_categories_exact_selection "Hep-Th" "hep-th"
           "High Energy Physics - Theory" eq_refl).
  - apply known_major. vm_compute. reflexivity.
  - vm_compute. discriminate.
  - split; vm_compute; reflexivity.
Defined.

Lemma returned_majors_check :
  forallb
    (λ m,
       forallb (λ item : string * string,
                  negb (startswith (lower item.1) m)
                  || String.eqb (major_of item.1) m
                  || (String.eqb m "math" && String.eqb item.1 "math-ph"))
               ARXIV_CATEGORIES_items)
    major_categories = true.
Proof. vm_compute. reflexivity. Qed.

(** X12. The major category of a code returned for a known filter is the
    filter in lower case, with one exception: the code [math-ph] returned
    for the filter [math].  So the mappings of two different major
    categories share no code but that one. *)
Theorem get_categories_major_of_result (f code desc : string) :
  nonempty f = true → lower f ∈ ARXIV_MAJOR_CATEGORIES →
  get_categories (Some f) !! code = Some desc →
  major_of code = lower f ∨ (lower f = "math" ∧ code = "math-ph").
Proof.
  intros Hf Hm Hget.
  apply (get_categories_known f code desc Hf Hm) in Hget as [Ht Hs].
  pose proof returned_majors_check as Hall. rewrite forallb_forall in Hall.
  apply major_categories_spec, list_elem_of_In in Hm.
  specialize (Hall _ Hm). rewrite forallb_forall in Hall.
  apply table_lookup_item, list_elem_of_In in Ht.
  specialize (Hall _ Ht). cbn [fst] in Hall. rewrite Hs in Hall.
  cbn [negb orb] in Hall. apply orb_true_iff in Hall as [H | H].
  - left. apply String.eqb_eq, H.
  - right. apply andb_true_iff in H as [H1 H2].
    split; apply String.eqb_eq; assumption.
Qed.

Lemma get_categories_major_of_result_witness :
  major_of "q-bio.NC" = "q-bio" ∨ ("q-bio" = "math" ∧ "q-bio.NC" = "math-ph").
Proof.
  apply (get_categories_major_of_result "Q-BIO" "q-bio.NC" "Neurons and Cognition"
           eq_refl).
  - apply known_major. vm_compute. reflexivity.
  - vm_compute. reflexivity.
Defined.

End TaxonomyMore.

(** ** More about the Atom response parser *)

Section ParserMore.
Import Py Models Xml Parser Words.

Lemma split_head_no_sep (c : ascii) (s : string) :
  contains c (split_head c s) = false.
Proof.
  induction s as [|a s IH]; cbn [split_head]; [reflexivity|].
  destruct (Ascii.eqb a c) eqn:Ha; cbn [contains]; [reflexivity|].
  rewrite Ha, IH. reflexivity.
Qed.

Lemma split_head_contains (c b : ascii) (s : string) :
  contains b s = false → contains b (split_head c s) = false.
Proof.
  induction s as [|a s IH]; cbn [split_head contains]; [reflexivity|].
  intros [Ha Hs]%orb_false_iff.
  destruct (Ascii.eqb a c); cbn [contains]; [reflexivity|].
  rewrite Ha, (IH Hs). reflexivity.
Qed.

Lemma split_last_no_sep (c : ascii) (s : string) :
  contains c (split_last c s) = false.
Proof.
  induction s as [|a s IH]; [reflexivity|].
  cbn [split_last]. destruct (contains c (String a s)) eqn:H; [exact IH | exact H].
Qed.

Lemma rstrip_cons (a : ascii) (r : string) :
  is_space a = false → rstrip (String a r) = String a (rstrip r).
Proof.
  intros Ha. cbn [rstrip]. rewrite Ha. destruct (rstrip r); reflexivity.
Qed.

Lemma rstrip_idem (s : string) : rstrip (rstrip s) = rstrip s.
Proof.
  induction s as [|a s IH]; [reflexivity|].
  cbn [rstrip]. destruct (rstrip s) as [|b t] eqn:Hr.
  - destruct (is_space a) eqn:Ha; [reflexivity|].
    cbn [rstrip]. rewrite Ha. reflexivity.
  - change (rstrip (String a (String b t)))
      with (match rstrip (String b t) with
            | EmptyString => if is_space a then EmptyString else String a EmptyString
            | String c r' => String a (String c r')
            end).
    rewrite IH. reflexivity.
Qed.

Lemma lstrip_head (s : string) :
  lstrip s = EmptyString
  ∨ ∃ a r, lstrip s = String a r ∧ is_space a = false.
Proof.
  induction s as [|a s IH]; [left; reflexivity|].
  cbn [lstrip]. destruct (is_space a) eqn:Ha; [exact IH|].
  right. exists a, s. auto.
Qed.

(** [strip] leaves nothing to strip *)
Lemma strip_idem (s : string) : strip (strip s) = strip s.
Proof.
  unfold strip. destruct (lstrip_head s) as [-> | (a & r & -> & Ha)]; [reflexivity|].
  rewrite (rstrip_cons a r Ha). cbn [lstrip]. rewrite Ha.
  rewrite (rstrip_cons a _ Ha), rstrip_idem. reflexivity.
Qed.

Lemma author_names_nonempty (entry : Element) :
  Forall (λ name, nonempty name = true) (author_names entry).
Proof.
  unfold author_names. induction (findall (atom "author") entry) as [|a l IH].
  - constructor.
  - cbn [omap list_omap]. 
    destruct (find (atom "name") a) as [name|]; [|exact IH].
    destruct (text name) as [t|] eqn:Ht; cbn [truthy]; [|exact IH].
    destruct (nonempty t) eqn:Hn; [|exact IH].
    constructor; assumption.
Qed.

(** X13. Every record the entry parser yields has at least one author,
    every author a non-empty text, at least one category, a title and an
    abstract with no white space left at either end, an identifier that
    holds neither a slash nor the letter v, a published date that is the
    conversion of the entry's timestamp, and no summary or score. *)
Theorem parsed_record_invariants (entry : Element) (paper : ArxivPaper) :
  _parse_entry entry = Ok (Some paper) →
  authors paper ≠ []
  ∧ Forall (λ name, nonempty name = true) (authors paper)
  ∧ categories paper ≠ []
  ∧ strip (title paper) = title paper
  ∧ strip (abstract paper) = abstract paper
  ∧ contains "/" (arxiv_id paper) = false
  ∧ contains "v" (arxiv_id paper) = false
  ∧ _parse_datetime (cast_str (published_text entry)) = Ok (published_date paper)
  ∧ ai_summary paper = None ∧ score paper = None.
Proof.
  intros H. destruct (incomplete entry) eqn:Hi.
  { rewrite (parse_entry_incomplete entry Hi) in H. discriminate. }
  rewrite (parse_entry_complete entry Hi) in H.
  destruct (_parse_datetime (cast_str (published_text entry))) as [date|];
    [|discriminate].
  inversion H; subst; clear H.
  cbn [authors categories title abstract arxiv_id published_date ai_summary
       score ArxivPaper_init].
  unfold incomplete in Hi.
  apply orb_false_iff in Hi as [Hi Hcat]. apply orb_false_iff in Hi as [_ Hauth].
  unfold lacks_authors in Hauth. unfold lacks_categories in Hcat.
  apply bool_decide_eq_false in Hauth. apply bool_decide_eq_false in Hcat.
  repeat split; try assumption; try reflexivity.
  - apply author_names_nonempty.
  - apply strip_idem.
  - apply strip_idem.
  - unfold entry_arxiv_id. apply split_head_contains, split_last_no_sep.
  - unfold entry_arxiv_id. apply split_head_no_sep.
Qed.

Lemma parsed_record_invariants_witness :
  authors (ArxivPaper_init "2301.00001" "First paper"
             ["Ada Lovelace"; "Alan Turing"] "An abstract."
             ["cs.AI"; "cs.LG"] "2023-01-02" None None None None) ≠ [].
Proof.
  destruct (parsed_record_invariants Samples.entry_one
              (ArxivPaper_init "2301.00001" "First paper"
                 ["Ada Lovelace"; "Alan Turing"] "An abstract."
                 ["cs.AI"; "cs.LG"] "2023-01-02" None None None None)
              eq_refl) as (Hauthors & _).
  exact Hauthors.
Defined.

Lemma yields_iff_sound (entry : Element) :
  (∃ paper, _parse_entry entry = Ok (Some paper)) ↔ sound_entry entry = true.
Proof.
  split; [|apply parse_entry_sound].
  intros [paper H]. unfold sound_entry, timestamp_accepted.
  destruct (incomplete entry) eqn:Hi.
  { rewrite (parse_entry_incomplete entry Hi) in H. discriminate. }
  rewrite (parse_entry_complete entry Hi) in H.
  destruct (_parse_datetime (cast_str (published_text entry))); [reflexivity|].
  discriminate.
Qed.


Lemma yields_record_sound (entry : Element) :
  yields_record entry = sound_entry entry.
Proof.
  destruct (sound_entry entry) eqn:Hs.
  - apply yields_iff_sound in Hs as [p Hp].
    unfold yields_record. rewrite Hp. reflexivity.
  - unfold yields_record. destruct (_parse_entry entry) as [[p|]|e] eqn:Hp;
      try reflexivity.
    assert (sound_entry entry = true) as Habs
      by (apply yields_iff_sound; eauto).
    congruence.
Qed.


(** X15. A batch never yields more records than it has entries, and it
    yields one record for each entry exactly when every entry is sound. *)
Theorem parse_entries_count (entries : list Element) :
  (length (parse_entries entries) ≤ length entries)%nat
  ∧ (length (parse_entries entries) = length entries
     ↔ forallb sound_entry entries = true).
Proof.
  induction entries as [|e l [IHle IHeq]];
    [split; [apply le_n | split; reflexivity]|].
  cbn [parse_entries forallb length]. rewrite <- (yields_record_sound e).
  unfold yields_record.
  destruct (_parse_entry e) as [[p|]|err]; cbn [length andb].
  - split; [lia|]. rewrite <- IHeq. split; lia.
  - split; [lia|]. split; [lia|discriminate].
  - split; [lia|]. split; [lia|discriminate].
Qed.

Lemma parse_entries_count_witness :
  length (parse_entries [Samples.entry_one; Samples.entry_three]) = 2%nat.
Proof.
  destruct (parse_entries_count [Samples.entry_one; Samples.entry_three])
    as [_ Hall].
  apply Hall. reflexivity.
Defined.

(** X16. The records of a batch are the records of its first part
    followed by the records of the rest: what an entry yields does not
    depend on the entries around it, and the order of the document is
    kept. *)
Theorem parse_entries_concat (first rest : list Element) :
  parse_entries (first ++ rest) = parse_entries first ++ parse_entries rest.
Proof. exact (parse_entries_app first rest). Qed.

(** X17. The call returns records exactly when the text is a well-formed
    document whose total count is there and is an integer.  Otherwise it
    raises, whatever the entries are: [ParseError] for a text that is not
    a document, [TypeError] for a document without the text of a total
    count, [ValueError] for a count that is not an integer. *)
Theorem parse_response_document_errors
    (fromstring : string → option Element) (text : string) :
  ((∃ papers, _parse_response fromstring text = Ok papers)
   ↔ ∃ root, fromstring text = Some root ∧ total_results_ok root = true)
  ∧ (fromstring text = None → _parse_response fromstring text = Raise ParseError)
  ∧ (∀ root, fromstring text = Some root →
       _safe_get_text (find_below (opensearch "totalResults") root) = None →
       _parse_response fromstring text = Raise TypeError)
  ∧ (∀ root count, fromstring text = Some root →
       _safe_get_text (find_below (opensearch "totalResults") root) = Some count →
       int_of_str count = None →
       ∃ msg, _parse_response fromstring text = Raise (ValueError msg)).
Proof.
  unfold _parse_response, total_results_ok. repeat split.
  - intros [papers H]. destruct (fromstring text) as [root|]; [|discriminate].
    exists root. split; [reflexivity|].
    destruct (_safe_get_text (find_below (opensearch "totalResults") root))
      as [count|]; [|discriminate].
    destruct (int_of_str count); [|discriminate].
    apply bool_decide_eq_true. eexists. reflexivity.
  - intros (root & -> & H).
    destruct (_safe_get_text (find_below (opensearch "totalResults") root))
      as [count|]; [|discriminate].
    apply bool_decide_eq_true in H as [n ->]. eexists. reflexivity.
  - intros ->. reflexivity.
  - intros root -> ->. reflexivity.
  - intros root count -> -> ->. eexists. reflexivity.
Qed.

Lemma parse_response_document_errors_witness :
  _parse_response
    (λ _, Some (Elem (atom "feed") ∅ None [Samples.entry_one])) ""
  = Raise TypeError.
Proof.
  destruct (parse_response_document_errors
              (λ _, Some (Elem (atom "feed") ∅ None [Samples.entry_one])) "")
    as (_ & _ & Hmissing & _).
  apply (Hmissing (Elem (atom "feed") ∅ None [Samples.entry_one])); reflexivity.
Defined.

(** *** Strict timestamps *)

Lemma digit_value_range (c : ascii) :
  is_digit c = true → 0 <= digit_value c <= 9.
Proof.
  unfold is_digit, digit_value. intros [H1 H2]%andb_true_iff.
  apply Nat.leb_le in H1, H2. lia.
Qed.

Lemma digit_char_value (c : ascii) (n : Z) :
  is_digit c = true → n mod 10 = digit_value c → digit_char n = c.
Proof.
  intros Hc Hn. unfold digit_char. rewrite Hn.
  unfold is_digit in Hc. apply andb_true_iff in Hc as [H1 _].
  apply Nat.leb_le in H1. unfold digit_value.
  replace (48 + Z.to_nat (Z.of_nat (nat_of_ascii c) - 48))%nat
    with (nat_of_ascii c) by lia.
  apply ascii_nat_embedding.
Qed.

Lemma pad2_digits (a b : ascii) :
  is_digit a = true → is_digit b = true →
  pad2 (10 * digit_value a + digit_value b) = String a (String b "").
Proof.
  intros Ha Hb. pose proof (digit_value_range a Ha). pose proof (digit_value_range b Hb).
  unfold pad2. f_equal; [|f_equal].
  - apply digit_char_value; [assumption|].
    Z.div_mod_to_equations. lia.
  - apply digit_char_value; [assumption|].
    Z.div_mod_to_equations. lia.
Qed.

Lemma pad4_digits (a b c d : ascii) :
  is_digit a = true → is_digit b = true → is_digit c = true → is_digit d = true →
  pad4 (decimal (String a (String b (String c (String d "")))))
  = String a (String b (String c (String d ""))).
Proof.
  intros Ha Hb Hc Hd.
  pose proof (digit_value_range a Ha). pose proof (digit_value_range b Hb).
  pose proof (digit_value_range c Hc). pose proof (digit_value_range d Hd).
  unfold decimal. cbn [decimal_from]. unfold pad4, pad2.
  repeat f_equal; (apply digit_char_value; [assumption|]);
    Z.div_mod_to_equations; lia.
Qed.

Lemma pad2_decimal (a b : ascii) :
  is_digit a = true → is_digit b = true →
  pad2 (decimal (String a (String b ""))) = String a (String b "").
Proof.
  intros Ha Hb.
  replace (decimal (String a (String b "")))
    with (10 * digit_value a + digit_value b)
    by (unfold decimal; cbn [decimal_from]; lia).
  apply pad2_digits; assumption.
Qed.

Lemma field_year_four (y1 y2 y3 y4 c : ascii) (rest : string) :
  is_digit y1 = true → is_digit y2 = true → is_digit y3 = true →
  is_digit y4 = true → is_digit c = false →
  field_year (String y1 (String y2 (String y3 (String y4 (String c rest)))))
  = (if 1 <=? decimal (String y1 (String y2 (String y3 (String y4 ""))))
     then Some (decimal (String y1 (String y2 (String y3 (String y4 "")))),
                String c rest)
     else None).
Proof.
  intros H1 H2 H3 H4 Hc. unfold field_year. cbn [span_digits].
  rewrite H1, H2, H3, H4, Hc. reflexivity.
Qed.

Lemma field2_two (lo hi : Z) (a b c : ascii) (rest : string) :
  is_digit a = true → is_digit b = true → is_digit c = false →
  field2 lo hi (String a (String b (String c rest)))
  = (if (lo <=? decimal (String a (String b "")))
        && (decimal (String a (String b "")) <=? hi)
     then Some (decimal (String a (String b "")), String c rest)
     else None).
Proof.
  intros Ha Hb Hc. unfold field2. cbn [span_digits].
  rewrite Ha, Hb, Hc. reflexivity.
Qed.

Lemma field_day_digit (c : ascii) (r : string) :
  is_digit c = true → field_day (String c r) = field2 1 31 (String c r).
Proof.
  intros Hc. destruct c as [[] [] [] [] [] [] [] []]; try discriminate Hc;
    reflexivity.
Qed.

Ltac separator H c lit :=
  destruct (Ascii.eqb_spec c lit) as [->|?];
  [| exfalso; destruct c as [[] [] [] [] [] [] [] []];
     try discriminate H; contradiction ].

Ltac next_char H s c :=
  destruct s as [|c s]; [discriminate H|].

Lemma strict_timestamp_shape (s : string) :
  strict_timestamp s = true →
  ∃ y1 y2 y3 y4 m1 m2 d1 d2 h1 h2 n1 n2 s1 s2,
    s = String y1 (String y2 (String y3 (String y4 (String "-"
        (String m1 (String m2 (String "-"
        (String d1 (String d2 (String "T"
        (String h1 (String h2 (String ":"
        (String n1 (String n2 (String ":"
        (String s1 (String s2 (String "Z" "")))))))))))))))))))
    ∧ forallb is_digit [y1; y2; y3; y4; m1; m2; d1; d2; h1; h2; n1; n2; s1; s2]
      = true.
Proof.
  intros H.
  next_char H s y1. next_char H s y2. next_char H s y3. next_char H s y4.
  next_char H s c1. separator H c1 "-"%char.
  next_char H s m1. next_char H s m2.
  next_char H s c2. separator H c2 "-"%char.
  next_char H s d1. next_char H s d2.
  next_char H s c3. separator H c3 "T"%char.
  next_char H s h1. next_char H s h2.
  next_char H s c4. separator H c4 ":"%char.
  next_char H s n1. next_char H s n2.
  next_char H s c5. separator H c5 ":"%char.
  next_char H s s1. next_char H s s2.
  next_char H s c6. separator H c6 "Z"%char.
  destruct s; [|discriminate H].
  exists y1, y2, y3, y4, m1, m2, d1, d2, h1, h2, n1, n2, s1, s2.
  split; [reflexivity | exact H].
Qed.

Lemma literal_same (c : ascii) (r : string) : literal c (String c r) = Some r.
Proof. cbn [literal]. rewrite Ascii.eqb_refl. reflexivity. Qed.

Ltac field_step Hs :=
  first [ rewrite literal_same in Hs
        | rewrite field_day_digit in Hs by assumption
        | rewrite field2_two in Hs by (assumption || reflexivity);
          destruct (_ && _) in Hs; [|discriminate Hs] ];
  cbn [mbind option_bind] in Hs.

Lemma strptime_strict_fields
    (y1 y2 y3 y4 m1 m2 d1 d2 h1 h2 n1 n2 s1 s2 : ascii) (dt : Z * Z * Z) :
  forallb is_digit [y1; y2; y3; y4; m1; m2; d1; d2; h1; h2; n1; n2; s1; s2] = true →
  strptime_iso
    (String y1 (String y2 (String y3 (String y4 (String "-"
    (String m1 (String m2 (String "-"
    (String d1 (String d2 (String "T"
    (String h1 (String h2 (String ":"
    (String n1 (String n2 (String ":"
    (String s1 (String s2 (String "Z" ""))))))))))))))))))))
  = Some dt →
  dt = (decimal (String y1 (String y2 (String y3 (String y4 "")))),
        decimal (String m1 (String m2 "")),
        decimal (String d1 (String d2 ""))).
Proof.
  cbn [forallb]. intros H Hs.
  repeat (apply andb_true_iff in H as [? H]).
  unfold strptime_iso in Hs.
  rewrite field_year_four in Hs by (assumption || reflexivity).
  destruct (1 <=? _); [|discriminate Hs].
  cbn [mbind option_bind] in Hs.
  do 12 field_step Hs.
  cbn [nonempty] in Hs.
  destruct (59 <? _); [discriminate Hs|].
  destruct (_ <? _); [discriminate Hs|].
  inversion Hs. reflexivity.
Qed.

(** X18. For a timestamp in the strict form YYYY-MM-DDTHH:MM:SSZ of a
    year from 1000 on, when the conversion accepts it the published date
    is the first ten characters of the timestamp: the date part is kept
    digit for digit and the time of day is dropped. *)
Theorem strict_timestamp_date_is_prefix (s : string) :
  strict_timestamp s = true → four_digit_year s = true →
  timestamp_accepted s = true →
  _parse_datetime s = Ok (take_chars 10 s).
Proof.
  intros Hstrict _ Hacc.
  destruct (strict_timestamp_shape s Hstrict)
    as (y1 & y2 & y3 & y4 & m1 & m2 & d1 & d2 & h1 & h2 & n1 & n2 & s1 & s2
        & -> & Hdigits).
  unfold timestamp_accepted, _parse_datetime in *.
  destruct (strptime_iso _) as [dt|] eqn:Hs; [|discriminate Hacc].
  rewrite (strptime_strict_fields _ _ _ _ _ _ _ _ _ _ _ _ _ _ dt Hdigits Hs).
  cbn [forallb] in Hdigits.
  repeat (apply andb_true_iff in Hdigits as [? Hdigits]).
  unfold strftime_ymd.
  rewrite pad4_digits, !pad2_decimal by assumption. reflexivity.
Qed.

Lemma strict_timestamp_date_is_prefix_witness :
  _parse_datetime "2023-01-02T03:04:05Z" = Ok "2023-01-02".
Proof.
  apply (strict_timestamp_date_is_prefix "2023-01-02T03:04:05Z"); reflexivity.
Defined.


End ParserMore.

(** ** More about the search operations and the life cycle *)

Section SearchMore.
Import Py Models Parser Words Orchestration.

Variable fromstring : string → option Xml.Element.
Variable transport : Request → result string.
Variable decode_papers : string → result (list ArxivPaper).

(** X19. Building the clauses never raises, whatever the fields and the
    dates are, and the clauses come in the fixed order: title, author,
    abstract, category, all fields, each only when it is there and not
    empty, then the date range when both dates are. *)
Theorem query_clauses_in_fixed_order
    (title author abstract category all_fields start_date end_date : option string) :
  build_query_parts title author abstract category all_fields start_date end_date
  = Ok (clause_of (quoted_clause "ti") title
        ++ clause_of (quoted_clause "au") author
        ++ clause_of (quoted_clause "abs") abstract
        ++ clause_of (plain_clause "cat") category
        ++ clause_of (plain_clause "all") all_fields
        ++ range_clause start_date end_date).
Proof.
  exact (build_query_parts_spec title author abstract category all_fields
                                start_date end_date).
Qed.

Lemma delete_dash_cons (a : ascii) (r : string) :
  delete_all "-" (String a r)
  = (if Ascii.eqb a "-" then delete_all "-" r else String a (delete_all "-" r)).
Proof.
  unfold delete_all. cbn [delete_from startswith].
  rewrite andb_true_r. reflexivity.
Qed.

Lemma delete_dash_none_left (s : string) :
  contains "-" (delete_all "-" s) = false.
Proof.
  induction s as [|a r IH]; [reflexivity|].
  rewrite delete_dash_cons. destruct (Ascii.eqb a "-") eqn:Ha; [exact IH|].
  cbn [contains]. rewrite Ha, IH. reflexivity.
Qed.

Lemma digit_not_dash (c : ascii) : is_digit c = true → Ascii.eqb c "-" = false.
Proof.
  intros Hc. apply Ascii.eqb_neq. intros ->. discriminate Hc.
Qed.

Ltac dash H c :=
  destruct (Ascii.eqb_spec c "-"%char) as [->|?];
  [| exfalso; destruct c as [[] [] [] [] [] [] [] []];
     try discriminate H; contradiction ].

Lemma is_ymd_shape (s : string) :
  is_ymd s = true →
  ∃ y1 y2 y3 y4 m1 m2 d1 d2,
    s = String y1 (String y2 (String y3 (String y4 (String "-"
        (String m1 (String m2 (String "-" (String d1 (String d2 "")))))))))
    ∧ forallb is_digit [y1; y2; y3; y4; m1; m2; d1; d2] = true.
Proof.
  intros H.
  destruct s as [|y1 s]; [discriminate H|]. destruct s as [|y2 s]; [discriminate H|].
  destruct s as [|y3 s]; [discriminate H|]. destruct s as [|y4 s]; [discriminate H|].
  destruct s as [|c1 s]; [discriminate H|]. dash H c1.
  destruct s as [|m1 s]; [discriminate H|]. destruct s as [|m2 s]; [discriminate H|].
  destruct s as [|c2 s]; [discriminate H|]. dash H c2.
  destruct s as [|d1 s]; [discriminate H|]. destruct s as [|d2 s]; [discriminate H|].
  destruct s; [|discriminate H].
  exists y1, y2, y3, y4, m1, m2, d1, d2. split; [reflexivity | exact H].
Qed.

Lemma is_ymd_date8 (s : string) :
  is_ymd s = true → is_date8 (delete_all "-" s) = true.
Proof.
  intros H.
  destruct (is_ymd_shape s H)
    as (y1 & y2 & y3 & y4 & m1 & m2 & d1 & d2 & -> & Hd).
  cbn [forallb] in Hd. repeat (apply andb_true_iff in Hd as [? Hd]).
  repeat (rewrite delete_dash_cons;
          first [ rewrite Ascii.eqb_refl
                | rewrite digit_not_dash by assumption ]).
  change (delete_all "-" "") with EmptyString.
  unfold is_date8. cbn [String.length Nat.eqb all_digits andb].
  repeat match goal with
         | Hc : is_digit _ = true |- _ => rewrite Hc; clear Hc
         end.
  reflexivity.
Qed.

Lemma delete_dash_filter (s : string) :
  list_ascii_of_string (delete_all "-" s) = without_dashes s.
Proof.
  unfold without_dashes.
  induction s as [|a r IH]; [reflexivity|].
  rewrite delete_dash_cons. cbn [list_ascii_of_string List.filter].
  destruct (Ascii.eqb a "-"); cbn [negb list_ascii_of_string]; rewrite IH;
    reflexivity.
Qed.

Lemma is_ymd_digits (s : string) :
  is_ymd s = true → delete_all "-" s = date_digits s.
Proof.
  intros H.
  destruct (is_ymd_shape s H)
    as (y1 & y2 & y3 & y4 & m1 & m2 & d1 & d2 & -> & Hd).
  cbn [forallb] in Hd. repeat (apply andb_true_iff in Hd as [? Hd]).
  repeat (rewrite delete_dash_cons;
          first [ rewrite Ascii.eqb_refl
                | rewrite digit_not_dash by assumption ]).
  reflexivity.
Qed.

(** X20. Each bound of the date range is its date with the dashes taken
    out, every other character kept in its order, followed by 0000 for
    the start and by 2359 for the end, whatever the dates are; so no bound
    holds a dash, and for a date of the form YYYY-MM-DD the bound is the
    four digits of the year, the two of the month and the two of the day
    of that very date, eight digits, then the time. *)
Theorem formatted_dates_have_no_dash (start_date end_date : string) :
  (∃ a b,
     format_dates start_date end_date = Ok (a +:+ "0000", b +:+ "2359")
     ∧ list_ascii_of_string a = without_dashes start_date
     ∧ list_ascii_of_string b = without_dashes end_date
     ∧ contains "-" a = false ∧ contains "-" b = false
     ∧ (is_ymd start_date = true →
        a = date_digits start_date ∧ is_date8 a = true)
     ∧ (is_ymd end_date = true →
        b = date_digits end_date ∧ is_date8 b = true)).
Proof.
  exists (delete_all "-" start_date), (delete_all "-" end_date).
  split; [reflexivity|].
  split; [apply delete_dash_filter|].
  split; [apply delete_dash_filter|].
  split; [apply delete_dash_none_left|].
  split; [apply delete_dash_none_left|].
  split; intros H; (split; [apply is_ymd_digits | apply is_ymd_date8]); exact H.
Qed.

Lemma formatted_dates_have_no_dash_witness :
  format_dates "2023-01-01" "2023-01-31"
  = Ok ("20230101" +:+ "0000", "20230131" +:+ "2359").
Proof.
  destruct (formatted_dates_have_no_dash "2023-01-01" "2023-01-31")
    as (a & b & Hformat & _ & _ & _ & _ & Ha & Hb).
  destruct (Ha eq_refl) as [Hstart _]. destruct (Hb eq_refl) as [Hend _].
  rewrite Hformat, Hstart, Hend. reflexivity.
Defined.

Lemma search_keyword_valid_call
    (client : ArxivClient) (page page_size : Z) (sort_by sort_order : string)
    (title author abstract category start_date end_date all_fields : option string)
    (log : list Request) :
  page_size_in_range page_size → 1 <= page →
  clauses_in_order title author abstract category all_fields start_date end_date
    ≠ [] →
  let request :=
    GET (arxiv_base_url client)
        [ ("search_query",
           VStr (String.concat " AND "
                   (clauses_in_order title author abstract category all_fields
                                     start_date end_date)));
          ("start", VInt ((page - 1) * page_size));
          ("max_results", VInt page_size);
          ("sortBy", VStr sort_by);
          ("sortOrder", VStr sort_order) ] in
  search_keyword fromstring transport (Some client) page page_size
                 sort_by sort_order title author abstract category
                 start_date end_date all_fields log
  = (match transport request with
     | Ok body => _parse_response fromstring body
     | Raise e => Raise e
     end, log ++ [request]).
Proof.
  intros [Hlo Hhi] Hpage Hclauses request. subst request.
  rewrite search_keyword_unfold.
  rewrite bool_decide_eq_false_2 by exact Hclauses.
  rewrite ArxivClient_search_cases.
  assert ((15 <? page_size) || (page_size <? 1) = false) as ->.
  { apply orb_false_iff. split; apply Z.ltb_ge; lia. }
  assert (((page - 1) * page_size <? 0) = false) as -> by (apply Z.ltb_ge; nia).
  reflexivity.
Qed.

(** X21. A keyword search with a page size from 1 to 15, a page from 1
    on and at least one clause issues exactly one GET: the query is the
    clauses joined by [ AND ], the start index is
    [(page - 1) * page_size], the maximum is the page size, and the sort
    field and order are passed on as they were given, unchecked.  Its
    outcome is the parse of the answer, or the failure of the transport. *)
Theorem search_keyword_request
    (client : ArxivClient) (page page_size : Z) (sort_by sort_order : string)
    (title author abstract category start_date end_date all_fields : option string)
    (log : list Request) :
  page_size_in_range page_size → 1 <= page →
  clauses_in_order title author abstract category all_fields start_date end_date
    ≠ [] →
  let request :=
    GET (arxiv_base_url client)
        [ ("search_query",
           VStr (String.concat " AND "
                   (clauses_in_order title author abstract category all_fields
                                     start_date end_date)));
          ("start", VInt ((page - 1) * page_size));
          ("max_results", VInt page_size);
          ("sortBy", VStr sort_by);
          ("sortOrder", VStr sort_order) ] in
  search_keyword fromstring transport (Some client) page page_size
                 sort_by sort_order title author abstract category
                 start_date end_date all_fields log
  = (match transport request with
     | Ok body => _parse_response fromstring body
     | Raise e => Raise e
     end, log ++ [request]).
Proof.
  exact (search_keyword_valid_call client page page_size sort_by sort_order
           title author abstract category start_date end_date all_fields log).
Qed.

(** X22. When every search field is empty or absent and the date range
    is not given in full, the keyword search raises the error about the
    missing criteria before it looks at the page or the page size, and
    issues nothing. *)
Theorem missing_criteria_comes_first
    (client : ArxivClient) (page page_size : Z) (sort_by sort_order : string)
    (title author abstract category start_date end_date all_fields : option string)
    (log : list Request) :
  no_search_field title author abstract category all_fields = true →
  truthy start_date && truthy end_date = false →
  search_keyword fromstring transport (Some client) page page_size
                 sort_by sort_order title author abstract category
                 start_date end_date all_fields log
  = (Raise missing_criteria, log).
Proof. apply search_keyword_missing_criteria. Qed.

(** X23. The checks of the semantic search come in a fixed order, and
    the first that fails decides the error: a blank query whatever the
    rest; then a page below 1 whatever the page size and the times; then a
    page size outside 1..15 whatever the times; then times out of order. *)
Theorem search_semantic_first_error
    (client : SemanticSearchClient) (query : string) (page page_size : Z)
    (use_rewrite : bool) (categories : option (list string))
    (start_time end_time : option string) (log : list Request) :
  let call :=
    search_semantic transport decode_papers (Some client) query page page_size
                    use_rewrite categories start_time end_time log in
  (nonempty (strip query) = false →
   call = (Raise (ValueError "Query content cannot be empty"), log))
  ∧ (nonempty (strip query) = true → page < 1 →
     call = (Raise (ValueError "Page number must be greater than or equal to 1"),
             log))
  ∧ (nonempty (strip query) = true → 1 <= page →
     ¬ page_size_in_range page_size →
     call = (Raise page_size_out_of_range, log))
  ∧ (nonempty (strip query) = true → 1 <= page →
     page_size_in_range page_size →
     times_out_of_order start_time end_time = true →
     call = (Raise (ValueError "Start date cannot be later than end date"), log)).
Proof.
  intros call. subst call. rewrite semantic_search_unfold. repeat split.
  - intros ->. reflexivity.
  - intros -> Hp. apply Z.ltb_lt in Hp. rewrite Hp. reflexivity.
  - intros -> Hp Hsize. cbn [negb].
    assert ((page <? 1) = false) as -> by (apply Z.ltb_ge; lia).
    assert ((page_size <? 1) || (15 <? page_size) = true) as ->; [|reflexivity].
    unfold page_size_in_range in Hsize. apply orb_true_iff.
    destruct (Z.ltb_spec page_size 1); [left; reflexivity|].
    right. apply Z.ltb_lt. lia.
  - intros -> Hp [Hlo Hhi] ->. cbn [negb].
    assert ((page <? 1) = false) as -> by (apply Z.ltb_ge; lia).
    assert ((page_size <? 1) || (15 <? page_size) = false) as ->; [|reflexivity].
    apply orb_false_iff. split; apply Z.ltb_ge; lia.
Qed.

(** X24. A semantic search that passes its checks issues exactly one
    POST whose body holds the query, the page, the page size,
    [search_by_paper] false and the rewrite flag, and holds each of
    [categories], [start_time] and [end_time] exactly when it is not
    [None]: an empty list or an empty text is sent as it is. *)
Theorem search_semantic_body
    (client : SemanticSearchClient) (query : string) (page page_size : Z)
    (use_rewrite : bool) (categories : option (list string))
    (start_time end_time : option string) (log : list Request) :
  page_size_in_range page_size → 1 <= page →
  nonempty (strip query) = true →
  times_out_of_order start_time end_time = false →
  ∃ body,
    (search_semantic transport decode_papers (Some client) query page page_size
                     use_rewrite categories start_time end_time log).2
    = log ++ [POST (semantic_base_url client) body]
    ∧ item_at "query" body = Some (VStr query)
    ∧ item_at "page" body = Some (VInt page)
    ∧ item_at "page_size" body = Some (VInt page_size)
    ∧ item_at "search_by_paper" body = Some (VBool false)
    ∧ item_at "use_rewrite" body = Some (VBool use_rewrite)
    ∧ item_at "categories" body = VList <$> categories
    ∧ item_at "start_time" body = VStr <$> start_time
    ∧ item_at "end_time" body = VStr <$> end_time.
Proof.
  intros Hsize Hpage Hq Ht.
  eexists. split.
  - apply search_semantic_sends; assumption.
  - destruct categories, start_time, end_time; repeat split; reflexivity.
Qed.

(** X25. A failure of the transport reaches the caller as it is, after
    exactly one request: none of the three operations tries again or
    swallows it. *)
Theorem transport_failure_is_passed_on
    (keyword_client : ArxivClient) (semantic_client : SemanticSearchClient)
    (e : exn) (log : list Request) :
  (∀ request, transport request = Raise e) →
  (∀ x,
     ∃ request,
       Server.get_details fromstring transport (Some keyword_client) x log
       = (Raise e, log ++ [request]))
  ∧ (∀ page page_size sort_by sort_order title author abstract category
        start_date end_date all_fields,
       page_size_in_range page_size → 1 <= page →
       clauses_in_order title author abstract category all_fields
                        start_date end_date ≠ [] →
       ∃ request,
         search_keyword fromstring transport (Some keyword_client) page page_size
                        sort_by sort_order title author abstract category
                        start_date end_date all_fields log
         = (Raise e, log ++ [request]))
  ∧ (∀ query page page_size use_rewrite categories start_time end_time,
       page_size_in_range page_size → 1 <= page →
       nonempty (strip query) = true →
       times_out_of_order start_time end_time = false →
       ∃ request,
         search_semantic transport decode_papers (Some semantic_client) query
                         page page_size use_rewrite categories
                         start_time end_time log
         = (Raise e, log ++ [request])).
Proof.
  intros Hfail. repeat split.
  - intros x. eexists. rewrite get_details_unfold, Hfail. reflexivity.
  - intros page page_size sort_by sort_order title author abstract category
      start_date end_date all_fields Hsize Hpage Hclauses.
    eexists.
    rewrite (search_keyword_valid_call keyword_client page page_size sort_by sort_order
               title author abstract category start_date end_date all_fields log
               Hsize Hpage Hclauses).
    rewrite Hfail. reflexivity.
  - intros query page page_size use_rewrite categories start_time end_time
      [Hlo Hhi] Hpage Hq Ht.
    eexists. rewrite semantic_search_unfold, Hq, Ht. cbn [negb].
    assert ((page <? 1) = false) as -> by (apply Z.ltb_ge; lia).
    assert ((page_size <? 1) || (15 <? page_size) = false) as ->.
    { apply orb_false_iff. split; apply Z.ltb_ge; lia. }
    cbv zeta. rewrite Hfail. reflexivity.
Qed.

End SearchMore.

Lemma search_keyword_request_witness :
  Orchestration.search_keyword (λ _, None) (λ _, Raise HTTPError)
    (Some Orchestration.ArxivClient_init) 3 5 "relevance" "ascending"
    None (Some "Noether") None None None None None []
  = (Raise HTTPError,
     [Orchestration.GET "https://export.arxiv.org/api/query"
        [ ("search_query",
           Orchestration.VStr (Orchestration.quoted_clause "au" "Noether"));
          ("start", Orchestration.VInt 10);
          ("max_results", Orchestration.VInt 5);
          ("sortBy", Orchestration.VStr "relevance");
          ("sortOrder", Orchestration.VStr "ascending") ]]).
Proof.
  apply (search_keyword_request (λ _, None) (λ _, Raise HTTPError)
           Orchestration.ArxivClient_init 3 5 "relevance" "ascending"
           None (Some "Noether") None None None None None []).
  - unfold Words.page_size_in_range. lia.
  - lia.
  - vm_compute. discriminate.
Defined.

Lemma missing_criteria_comes_first_witness :
  Orchestration.search_keyword (λ _, None) (λ _, Raise HTTPError)
    (Some Orchestration.ArxivClient_init) 0 99 "submittedDate" "descending"
    (Some "") None None None (Some "2023-01-01") None None []
  = (Raise Words.missing_criteria, []).
Proof.
  apply (missing_criteria_comes_first (λ _, None) (λ _, Raise HTTPError));
    reflexivity.
Defined.

Lemma search_semantic_first_error_witness :
  Orchestration.search_semantic (λ _, Raise HTTPError) (λ _, Ok [])
    (Some Orchestration.SemanticSearchClient_init) "   " 0 99 false None
    (Some "2024") (Some "2023") []
  = (Raise (ValueError "Query content cannot be empty"), []).
Proof.
  destruct (search_semantic_first_error (λ _, Raise HTTPError) (λ _, Ok [])
              Orchestration.SemanticSearchClient_init "   " 0 99 false None
              (Some "2024") (Some "2023") []) as (Hblank & _).
  apply Hblank. reflexivity.
Defined.

Lemma search_semantic_body_witness :
  ∃ body,
    (Orchestration.search_semantic (λ _, Raise HTTPError) (λ _, Ok [])
       (Some Orchestration.SemanticSearchClient_init) "graphs" 1 10 true
       (Some []) (Some "") None []).2
    = [Orchestration.POST "https://hub.arxivsearch.cn/api/search" body]
    ∧ Words.item_at "categories" body = Some (Orchestration.VList [])
    ∧ Words.item_at "start_time" body = Some (Orchestration.VStr "")
    ∧ Words.item_at "end_time" body = None.
Proof.
  destruct (search_semantic_body (λ _, Raise HTTPError) (λ _, Ok [])
              Orchestration.SemanticSearchClient_init "graphs" 1 10 true
              (Some []) (Some "") None [])
    as (body & Hsent & _ & _ & _ & _ & _ & Hcat & Hstart & Hend);
    [unfold Words.page_size_in_range; lia | lia | reflexivity | reflexivity |].
  exists body. repeat split; assumption.
Defined.

Lemma transport_failure_is_passed_on_witness :
  ∃ request,
    Server.get_details (λ _, None) (λ _, Raise HTTPError)
      (Some Orchestration.ArxivClient_init) "2201.00001" []
    = (Raise HTTPError, [request]).
Proof.
  destruct (transport_failure_is_passed_on (λ _, None) (λ _, Raise HTTPError)
              (λ _, Ok []) Orchestration.ArxivClient_init
              Orchestration.SemanticSearchClient_init HTTPError []
              (λ _, eq_refl)) as (Hdetails & _).
  apply Hdetails.
Defined.

Section LifeCycle.
Import Py Models Parser Words Orchestration.

Variable fromstring : string → option Xml.Element.
Variable transport : Request → result string.
Variable decode_papers : string → result (list ArxivPaper).
Variable DateTime : Type.
Variable now : DateTime.
Variable strftime : DateTime → string → result string.



End LifeCycle.
